(** * KernelF: the build-policy optimizer and the hmbird_sched proc interface

    A shallow embedding of [build_policy.c] (the rate-limited load
    optimizer, its hotplug notifier and its module life cycle) and of
    [hmbird_sched_proc_main.c] (the proc tunables and the statistics
    report), with the properties of the design document stated and
    proved over it.

    Machine integers are carried as [Z] with the wrap-around of their C
    type written out: [u64] for [u64]/[unsigned long], [s32] for [int],
    [u32] for [unsigned int]. *)

From Stdlib Require Import ZArith List Bool Lia String Ascii.
From Stdlib Require DecimalString.
Import ListNotations.
Open Scope Z_scope.

(** ** Machine arithmetic *)

Definition U64_MOD : Z := 2 ^ 64.
Definition INT_MAX : Z := 2 ^ 31 - 1.
Definition INT_MIN : Z := - 2 ^ 31.
Definition UINT_MAX : Z := 2 ^ 32 - 1.

(** Conversion to a 64-bit unsigned type (also the result of every
    [u64] operation). *)
Definition u64 (z : Z) : Z := z mod U64_MOD.

(** Conversion to [unsigned int]. *)
Definition u32 (z : Z) : Z := z mod 2 ^ 32.

(** Conversion to [int]; the kernel is built with wrapping signed
    arithmetic. *)
Definition s32 (z : Z) : Z := (z + 2 ^ 31) mod 2 ^ 32 - 2 ^ 31.

(** ** The platform the code runs on

    [struct rq] comes from [sched.h], which is not part of the sources
    at hand; only its two counters are read. *)

Record rq := mk_rq {
  nr_running : Z;
  nr_switches : Z
}.

(** What the code reads from the kernel at one invocation: the clock,
    the online mask (in increasing order, as [for_each_online_cpu]
    walks it), the run queues, the executing processor, and the values
    of [ext.c] that the report prints. *)
Record machine := mk_machine {
  sched_clock : Z;
  cpu_online_mask : list Z;
  cpu_rq : Z -> rq;
  smp_processor_id : Z;
  NR_CPUS : Z;
  scx_exit_type : Z;
  scx_nr_rejected : Z
}.

Definition num_online_cpus (m : machine) : Z :=
  Z.of_nat (List.length (cpu_online_mask m)).

(** ** Observable effects *)

Inductive loglevel := KERN_DEBUG | KERN_INFO | KERN_ERR.

Inductive effect :=
| Printk (lvl : loglevel) (fmt : string) (args : list Z)
| Smp_call_function_single (cpu : Z)
| Cpufreq_cpu_get (cpu : Z).

(** ** build_policy.c *)

(** The four file-scope variables of the policy module. *)
Record policy := mk_policy {
  policy_optimization_enabled : bool;
  cpu_performance_threshold : Z;
  load_balance_interval : Z;
  last_optimization_time : Z
}.

(** Their static initialisers. *)
Definition policy_static : policy := mk_policy true 80 100 0.

Definition set_last_optimization_time (p : policy) (t : Z) : policy :=
  mk_policy (policy_optimization_enabled p) (cpu_performance_threshold p)
            (load_balance_interval p) t.

Definition set_cpu_performance_threshold (p : policy) (v : Z) : policy :=
  mk_policy (policy_optimization_enabled p) v
            (load_balance_interval p) (last_optimization_time p).

Definition set_load_balance_interval (p : policy) (v : Z) : policy :=
  mk_policy (policy_optimization_enabled p) (cpu_performance_threshold p)
            v (last_optimization_time p).

Definition set_policy_optimization_enabled (p : policy) (b : bool) : policy :=
  mk_policy b (cpu_performance_threshold p)
            (load_balance_interval p) (last_optimization_time p).

(** The rate-limit test of [optimize_cpu_performance]:
    [current_time - last_optimization_time <
     load_balance_interval * 1000000ULL], all in [u64]. *)
Definition rate_limited (p : policy) (current_time : Z) : bool :=
  u64 (current_time - last_optimization_time p)
  <? u64 (u64 (load_balance_interval p) * 1000000).

(** One iteration of the first [for_each_online_cpu] loop. *)
Definition collect_step (m : machine) (online_cpus : Z)
    (acc : Z * bool * list effect) (cpu : Z) : Z * bool * list effect :=
  let '(total_load, need_rebalance, log) := acc in
  let r := cpu_rq m cpu in
  let total_load := u64 (total_load + nr_running r) in
  if nr_running r >? u64 (s32 (online_cpus * 2))
  then (total_load, true,
        log ++ [Printk KERN_DEBUG "CPU %d overloaded: %lu tasks\n"
                       [cpu; nr_running r]])
  else (total_load, need_rebalance, log).

Definition collect_load (m : machine) (online_cpus : Z)
  : Z * bool * list effect :=
  fold_left (collect_step m online_cpus) (cpu_online_mask m) (0, false, []).

(** The second loop: every online processor but the executing one is
    kicked. *)
Definition kick_all (m : machine) : list effect :=
  map Smp_call_function_single
      (filter (fun cpu => negb (cpu =? smp_processor_id m))
              (cpu_online_mask m)).

(** The adaptive threshold adjustment at the end of a pass. *)
Definition adjust_threshold (threshold total_load online_cpus : Z) : Z :=
  if total_load >? u64 (s32 (online_cpus * 3))
  then Z.min (s32 (threshold + 5)) 95
  else if total_load <? u64 online_cpus
       then Z.max (s32 (threshold - 5)) 50
       else threshold.

Definition optimize_cpu_performance (p : policy) (m : machine)
  : policy * list effect :=
  let current_time := sched_clock m in
  let online_cpus := s32 (num_online_cpus m) in
  if rate_limited p current_time then (p, [])
  else
    let p := set_last_optimization_time p current_time in
    let '(total_load, need_rebalance, log) := collect_load m online_cpus in
    let log :=
      if need_rebalance && policy_optimization_enabled p
      then log ++ Printk KERN_INFO "Triggering system-wide load rebalancing\n" []
               :: kick_all m
      else log in
    (set_cpu_performance_threshold p
       (adjust_threshold (cpu_performance_threshold p) total_load online_cpus),
     log).

(** Hotplug notifier actions, from the kernel's [cpu.h] and
    [notifier.h]. *)
Definition CPU_ONLINE : Z := 0x0002.
Definition CPU_DOWN_PREPARE : Z := 0x0005.
Definition CPU_TASKS_FROZEN : Z := 0x0010.
Definition NOTIFY_OK : Z := 0x0001.

Definition policy_cpu_callback (p : policy) (m : machine) (action hcpu : Z)
  : policy * Z * list effect :=
  let cpu := s32 hcpu in
  let a := u64 (Z.land action (Z.lnot CPU_TASKS_FROZEN)) in
  if a =? CPU_ONLINE then
    let r := cpu_rq m cpu in
    let '(p', log) := optimize_cpu_performance p m in
    (p', NOTIFY_OK,
     Printk KERN_INFO "CPU %d came online, current load: %lu\n"
            [cpu; nr_running r] :: log)
  else if a =? CPU_DOWN_PREPARE then
    let '(p', log) := optimize_cpu_performance p m in
    (p', NOTIFY_OK, Printk KERN_INFO "CPU %d going offline\n" [cpu] :: log)
  else (p, NOTIFY_OK, []).

(** The three-tier table of [build_policy_init]. *)
Definition init_parameters (p : policy) (online_cpus : Z) : policy :=
  if online_cpus >=? 8 then
    set_load_balance_interval (set_cpu_performance_threshold p 85) 50
  else if online_cpus >=? 4 then
    set_load_balance_interval (set_cpu_performance_threshold p 75) 75
  else
    set_load_balance_interval (set_cpu_performance_threshold p 70) 100.

(** [build_policy_init]; [init_time] is the clock read on entry and
    [ret] what [register_cpu_notifier] answers. *)
Definition build_policy_init (p : policy) (m : machine) (init_time ret : Z)
  : policy * Z * list effect :=
  let online_cpus := s32 (num_online_cpus m) in
  let log0 :=
    [Printk KERN_INFO "Enhanced build policy module loading...\n" [];
     Printk KERN_INFO "System info: %d online CPUs, init time: %llu\n"
            [online_cpus; init_time]] in
  if negb (ret =? 0) then
    (p, ret,
     log0 ++ [Printk KERN_ERR "Failed to register CPU notifier: %d\n" [ret]])
  else
    let p := init_parameters p online_cpus in
    let '(p, log) := optimize_cpu_performance p m in
    (p, 0,
     log0 ++ log ++
     [Printk KERN_INFO "Build policy module loaded successfully\n" [];
      Printk KERN_INFO "Performance threshold: %d%%, Balance interval: %dms\n"
             [cpu_performance_threshold p; load_balance_interval p]]).

Definition build_policy_exit (p : policy) (m : machine) (exit_time : Z)
  : policy * list effect :=
  let p := set_policy_optimization_enabled p false in
  let '(p, log) := optimize_cpu_performance p m in
  (p,
   Printk KERN_INFO "Build policy module unloading...\n" [] :: log ++
   [Printk KERN_INFO "Build policy module unloaded at time: %llu\n"
           [exit_time]]).

(** The [module_param] declarations at the end of the file: each
    variable is published under the module's parameter directory with
    the given mode.  A store through a writable [int] parameter places
    the number written in the variable when it fits an [int] and is
    refused otherwise; nothing else is checked. *)
Inductive module_param :=
| Param_policy_optimization_enabled
| Param_cpu_performance_threshold
| Param_load_balance_interval.

Definition module_param_perm (prm : module_param) : Z :=
  match prm with
  | Param_policy_optimization_enabled => 420 (* 0644 *)
  | Param_cpu_performance_threshold => 420 (* 0644 *)
  | Param_load_balance_interval => 420 (* 0644 *)
  end.

Definition S_IWUGO : Z := 146. (* 0222 *)
Definition S_IRUGO : Z := 292. (* 0444 *)

Definition module_param_writable (prm : module_param) : bool :=
  negb (Z.land (module_param_perm prm) S_IWUGO =? 0).

Definition module_param_readable (prm : module_param) : bool :=
  negb (Z.land (module_param_perm prm) S_IRUGO =? 0).

Definition fits_int (v : Z) : bool := (INT_MIN <=? v) && (v <=? INT_MAX).

Definition module_param_store (p : policy) (prm : module_param) (v : Z)
  : policy :=
  if module_param_writable prm then
    match prm with
    | Param_policy_optimization_enabled =>
        set_policy_optimization_enabled p (negb (v =? 0))
    | Param_cpu_performance_threshold =>
        if fits_int v then set_cpu_performance_threshold p v else p
    | Param_load_balance_interval =>
        if fits_int v then set_load_balance_interval p v else p
    end
  else p.

(** ** Runs of the policy module *)

Inductive event :=
| Ev_init (init_time ret : Z)
| Ev_hotplug (action hcpu : Z)
| Ev_exit (exit_time : Z)
| Ev_param_store (prm : module_param) (v : Z).

Definition policy_step (p : policy) (e : event) (m : machine) : policy :=
  match e with
  | Ev_init init_time ret => fst (fst (build_policy_init p m init_time ret))
  | Ev_hotplug action hcpu => fst (fst (policy_cpu_callback p m action hcpu))
  | Ev_exit exit_time => fst (build_policy_exit p m exit_time)
  | Ev_param_store prm v => module_param_store p prm v
  end.

Fixpoint policy_run (p : policy) (evs : list (event * machine)) : policy :=
  match evs with
  | [] => p
  | (e, m) :: evs' => policy_run (policy_step p e m) evs'
  end.

(** Events that come from the module itself (life cycle and hotplug),
    as opposed to a store through a module parameter. *)
Definition is_module_event (e : event) : bool :=
  match e with
  | Ev_param_store _ _ => false
  | _ => true
  end.

(** Successive invocations of the optimizer, each with the snapshot it
    sees; the effects are concatenated. *)
Fixpoint optimize_many (p : policy) (ms : list machine)
  : policy * list effect :=
  match ms with
  | [] => (p, [])
  | m :: ms' =>
      let '(p1, log1) := optimize_cpu_performance p m in
      let '(p2, log2) := optimize_many p1 ms' in
      (p2, log1 ++ log2)
  end.

(** ** Quantities the design document speaks of *)

(** The sum of the queue lengths of the online processors. *)
Definition total_queue_length (m : machine) : Z :=
  fold_right (fun cpu acc => nr_running (cpu_rq m cpu) + acc) 0
             (cpu_online_mask m).

Definition total_switch_count (m : machine) : Z :=
  fold_right (fun cpu acc => nr_switches (cpu_rq m cpu) + acc) 0
             (cpu_online_mask m).

(** A processor is overloaded when its queue is longer than twice the
    number of online processors. *)
Definition overloaded (m : machine) (cpu : Z) : bool :=
  nr_running (cpu_rq m cpu) >? 2 * num_online_cpus m.

(** The kicks sent during a pass, in order. *)
Definition kicks (log : list effect) : list Z :=
  flat_map (fun e => match e with
                     | Smp_call_function_single cpu => [cpu]
                     | _ => []
                     end) log.

(** The processors named by an overload diagnostic, in order. *)
Definition flagged (log : list effect) : list Z :=
  flat_map (fun e => match e with
                     | Printk KERN_DEBUG _ (cpu :: _) => [cpu]
                     | _ => []
                     end) log.

(** A snapshot the kernel can present: distinct online processors
    numbered from zero, few enough that [3 * n] fits an [int],
    counters within their unsigned types, and a 64-bit clock. *)
Definition wf_machine (m : machine) : Prop :=
  NoDup (cpu_online_mask m) /\
  3 * num_online_cpus m <= INT_MAX /\
  Forall (fun cpu => 0 <= nr_running (cpu_rq m cpu) <= UINT_MAX /\
                     0 <= nr_switches (cpu_rq m cpu) < U64_MOD)
         (cpu_online_mask m) /\
  0 <= sched_clock m < U64_MOD /\
  Forall (fun cpu => 0 <= cpu) (cpu_online_mask m).

(** The threshold can be stepped by five without leaving [int]. *)
Definition threshold_steppable (p : policy) : Prop :=
  INT_MIN + 5 <= cpu_performance_threshold p <= INT_MAX - 5.


(** ** Kernel string routines used by the proc write path

    [strstrip] ([lib/string.c]) and [kstrtoint] ([lib/kstrtox.c]) are
    kernel library code outside the two files at hand; they are
    written out here after the library, base handling included, since
    the write path calls [kstrtoint] with base 0.  A C string is the
    list of its bytes before the terminating NUL. *)

Definition EFAULT : Z := 14.
Definition EINVAL : Z := 22.
Definition ERANGE : Z := 34.

Definition code (c : ascii) : Z := Z.of_N (N_of_ascii c).

Definition NUL : ascii := ascii_of_N 0.

(** [s[i]], the terminator included. *)
Definition char_at (s : list ascii) (i : nat) : Z := code (nth i s NUL).

(** The bytes of a buffer up to its first NUL. *)
Fixpoint cstring (buf : list ascii) : list ascii :=
  match buf with
  | [] => []
  | c :: rest => if code c =? 0 then [] else c :: cstring rest
  end.

Definition isspace (c : ascii) : bool :=
  let k := code c in
  ((9 <=? k) && (k <=? 13)) || (k =? 32) || (k =? 160).

Definition isxdigit (k : Z) : bool :=
  ((48 <=? k) && (k <=? 57)) || ((65 <=? k) && (k <=? 70))
  || ((97 <=? k) && (k <=? 102)).

Definition _tolower (k : Z) : Z := Z.lor k 0x20.

Fixpoint skip_spaces (s : list ascii) : list ascii :=
  match s with
  | c :: rest => if isspace c then skip_spaces rest else s
  | [] => []
  end.

(** [strim]: cut the trailing white space, then skip the leading. *)
Definition strim (s : list ascii) : list ascii :=
  skip_spaces (rev (skip_spaces (rev s))).

Definition strstrip (s : list ascii) : list ascii := strim s.

Inductive kresult :=
| KOk (v : Z)
| KErr (rv : Z).

Definition _parse_integer_fixup_radix (s : list ascii) (base : Z)
  : list ascii * Z :=
  let base :=
    if base =? 0 then
      if char_at s 0 =? 48 then
        if (_tolower (char_at s 1) =? 120) && isxdigit (char_at s 2)
        then 16 else 8
      else 10
    else base in
  if (base =? 16) && (char_at s 0 =? 48) && (_tolower (char_at s 1) =? 120)
  then (skipn 2 s, base)
  else (s, base).

Definition ULLONG_MAX : Z := U64_MOD - 1.

(** [_parse_integer]: the digits consumed, the value (in [u64]), the
    overflow flag, and what is left of the string. *)
Fixpoint _parse_integer (s : list ascii) (base res rv : Z) (ovf : bool)
  : Z * Z * bool * list ascii :=
  match s with
  | [] => (res, rv, ovf, [])
  | c :: s' =>
      let k := code c in
      let lc := _tolower k in
      let digit :=
        if (48 <=? k) && (k <=? 57) then Some (k - 48)
        else if (97 <=? lc) && (lc <=? 102) then Some (lc - 97 + 10)
        else None in
      match digit with
      | None => (res, rv, ovf, s)
      | Some val =>
          if val >=? base then (res, rv, ovf, s)
          else
            let ovf :=
              if negb (Z.land res (u64 (Z.shiftl ULLONG_MAX 60)) =? 0)
              then (res >? (ULLONG_MAX - val) / base) || ovf
              else ovf in
            _parse_integer s' base (u64 (res * base + val)) (rv + 1) ovf
      end
  end.

Definition _kstrtoull (s : list ascii) (base : Z) : kresult :=
  let '(s, base) := _parse_integer_fixup_radix s base in
  let '(res, rv, ovf, rest) := _parse_integer s base 0 0 false in
  if ovf then KErr (- ERANGE)
  else if rv =? 0 then KErr (- EINVAL)
  else
    let rest := if char_at rest 0 =? 10 then tl rest else rest in
    match rest with
    | [] => KOk res
    | _ :: _ => KErr (- EINVAL)
    end.

Definition kstrtoull (s : list ascii) (base : Z) : kresult :=
  _kstrtoull (if char_at s 0 =? 43 then tl s else s) base.

Definition s64 (z : Z) : Z := (z + 2 ^ 63) mod U64_MOD - 2 ^ 63.

Definition kstrtoll (s : list ascii) (base : Z) : kresult :=
  if char_at s 0 =? 45 then
    match _kstrtoull (tl s) base with
    | KErr rv => KErr rv
    | KOk tmp =>
        if s64 (- tmp) >? 0 then KErr (- ERANGE) else KOk (s64 (- tmp))
    end
  else
    match kstrtoull s base with
    | KErr rv => KErr rv
    | KOk tmp => if s64 tmp <? 0 then KErr (- ERANGE) else KOk tmp
    end.

(** [kstrtoint (s, base, res)]: the return value and the content of
    [*res] afterwards. *)
Definition kstrtoint (s : list ascii) (base : Z) (res : Z) : Z * Z :=
  match kstrtoll s base with
  | KErr rv => (rv, res)
  | KOk tmp => if tmp =? s32 tmp then (0, tmp) else (- ERANGE, res)
  end.

(** [copy_from_user]: [buf] stands for the bytes readable at the user
    pointer; asking for more than are readable faults. *)
Definition copy_from_user (buf : list ascii) (count : Z)
  : option (list ascii) :=
  if Z.of_nat (List.length buf) <? count then None
  else Some (firstn (Z.to_nat count) buf).

(** ** hmbird_sched_proc_main.c *)

(** The file's global tunables. *)
Inductive tunable :=
| scx_enable | partial_enable | cpuctrl_high_ratio | cpuctrl_low_ratio
| slim_stats | hmbirdcore_debug | slim_for_app | misfit_ds
| highres_tick_ctrl | highres_tick_ctrl_dbg | cpu7_tl
| slim_walt_ctrl | slim_walt_dump | slim_walt_policy | slim_gov_debug
| scx_gov_ctrl | sched_ravg_window_frame_per_sec
| parctrl_high_ratio | parctrl_low_ratio
| parctrl_high_ratio_l | parctrl_low_ratio_l
| isoctrl_high_ratio | isoctrl_low_ratio
| isolate_ctrl | iso_free_rescue | heartbeat | heartbeat_enable
| watchdog_enable | save_gov | cpu_cluster_masks.

Definition tunable_eq_dec (a b : tunable) : {a = b} + {a <> b}.
Proof. decide equality. Defined.

(** The store of the tunables; every cell is accessed as an [int]. *)
Definition tunables := tunable -> Z.

Definition tunables_static : tunables := fun t =>
  match t with
  | cpuctrl_high_ratio => 55
  | cpuctrl_low_ratio => 40
  | misfit_ds => 90
  | cpu7_tl => 70
  | scx_gov_ctrl => 1
  | sched_ravg_window_frame_per_sec => 125
  | parctrl_high_ratio => 55
  | parctrl_low_ratio => 40
  | parctrl_high_ratio_l => 65
  | parctrl_low_ratio_l => 50
  | isoctrl_high_ratio => 75
  | isoctrl_low_ratio => 60
  | _ => 0
  end.

Definition store (ts : tunables) (t : tunable) (v : Z) : tunables :=
  fun t' => if tunable_eq_dec t t' then v else ts t'.

(** [set_proc_buf_val (file, buf, count, val)]: the return value, the
    content of [*val] afterwards, and what was logged. *)
Definition set_proc_buf_val (buf : list ascii) (count : Z) (val : Z)
  : Z * Z * list effect :=
  if count >=? 5 then (- EFAULT, val, [])
  else
    match copy_from_user buf count with
    | None =>
        (- EFAULT, val,
         [Printk KERN_ERR "hmbird_sched : Failed to copy_from_user\n" []])
    | Some bytes =>
        let kbuf := bytes ++ repeat NUL (5 - List.length bytes) in
        let '(err, val) := kstrtoint (strstrip (cstring kbuf)) 0 val in
        if err <? 0 then
          (- EFAULT, val,
           [Printk KERN_ERR "hmbird_sched: Failed to exec kstrtoint\n" []])
        else (0, val, [])
    end.

(** The write handlers.  Each returns its [ssize_t] result, the cell
    behind [pde_data] afterwards, and the log. *)
Definition hmbird_common_write (buf : list ascii) (count : Z) (pval : Z)
  : Z * Z * list effect :=
  let '(rv, pval, log) := set_proc_buf_val buf count pval in
  if negb (rv =? 0) then (- EFAULT, pval, log) else (s64 count, pval, log).

Definition scx_enable_proc_write (buf : list ascii) (count : Z) (pval : Z)
  : Z * Z * list effect :=
  let '(rv, pval, log) := set_proc_buf_val buf count pval in
  if negb (rv =? 0) then (- EFAULT, pval, log) else (s64 count, pval, log).

Definition sched_ravg_window_frame_per_sec_proc_write
    (buf : list ascii) (count : Z) (pval : Z) : Z * Z * list effect :=
  let '(rv, pval, log) := set_proc_buf_val buf count pval in
  if negb (rv =? 0) then (- EFAULT, pval, log) else (s64 count, pval, log).

(** The cpufreq core as [save_gov_str] meets it: the present
    processors, in the order [for_each_present_cpu] walks them, and
    what [cpufreq_cpu_get] answers for a processor: the [cpu] field
    of its policy, or [None] for the NULL it answers when the
    processor has no policy. *)
Record cpufreq := mk_cpufreq {
  cpu_present_mask : list Z;
  cpufreq_cpu_get : Z -> option Z
}.

(** The loop of [save_gov_str].  Each successful [cpufreq_cpu_get]
    takes a reference on the policy, logged as [Cpufreq_cpu_get];
    the loop never gives one back.  The test [cpu != policy->cpu]
    reads through the pointer as it came, so a NULL answer stops the
    walk there with a fault: the flag tells whether the walk reached
    its end. *)
Fixpoint save_gov_walk (cf : cpufreq) (cpus : list Z) : bool * list effect :=
  match cpus with
  | [] => (true, [])
  | cpu :: rest =>
      match cpufreq_cpu_get cf cpu with
      | None => (false, [])
      | Some policy_cpu =>
          let '(completed, log) :=
            if negb (cpu =? policy_cpu)
            then save_gov_walk cf rest
            else save_gov_walk cf rest in
          (completed, Cpufreq_cpu_get cpu :: log)
      end
  end.

(** [save_gov_str]: the walk, then [return count].  The result is
    [None] when the walk faulted (the write never returns); the cell
    is not written either way. *)
Definition save_gov_str (cf : cpufreq)
    (buf : list ascii) (count : Z) (pval : Z)
  : option Z * Z * list effect :=
  let '(completed, log) := save_gov_walk cf (cpu_present_mask cf) in
  (if completed then Some (s64 count) else None, pval, log).

Definition cpu_cluster_proc_write (buf : list ascii) (count : Z) (pval : Z)
  : Z * Z * list effect :=
  let '(rv, pval, log) := set_proc_buf_val buf count pval in
  if negb (rv =? 0) then (- EFAULT, pval, log) else (s64 count, pval, log).

Definition slim_walt_ctrl_write (buf : list ascii) (count : Z) (pval : Z)
  : Z * Z * list effect :=
  let '(rv, pval, log) := set_proc_buf_val buf count pval in
  if negb (rv =? 0) then (- EFAULT, pval, log) else (s64 count, pval, log).

(** The operation tables built with [HMBIRD_PROC_OPS]. *)
Inductive proc_ops :=
| hmbird_common_proc_ops
| scx_enable_proc_ops
| sched_ravg_window_frame_per_sec_proc_ops
| save_gov_proc_ops
| cpu_cluster_masks_proc_ops
| slim_walt_ctrl_proc_ops.

(** A handler that comes back with its [ssize_t] result. *)
Definition returned (r : Z * Z * list effect) : option Z * Z * list effect :=
  let '(ret, pval, log) := r in (Some ret, pval, log).

(** The [proc_write] member of an operation table: what the write
    returns ([None] if it faults instead of returning), the cell
    afterwards, and the log. *)
Definition proc_ops_write (ops : proc_ops) (cf : cpufreq)
    (buf : list ascii) (count : Z) (pval : Z)
  : option Z * Z * list effect :=
  match ops with
  | hmbird_common_proc_ops => returned (hmbird_common_write buf count pval)
  | scx_enable_proc_ops => returned (scx_enable_proc_write buf count pval)
  | sched_ravg_window_frame_per_sec_proc_ops =>
      returned (sched_ravg_window_frame_per_sec_proc_write buf count pval)
  | save_gov_proc_ops => save_gov_str cf buf count pval
  | cpu_cluster_masks_proc_ops =>
      returned (cpu_cluster_proc_write buf count pval)
  | slim_walt_ctrl_proc_ops => returned (slim_walt_ctrl_write buf count pval)
  end.

Inductive proc_dir := HMBIRD_SCHED_PROC_DIR | LOAD_TRACK_DIR | SLIM_FREQ_GOV_DIR.

Record proc_entry := mk_entry {
  pe_dir : proc_dir;
  pe_name : string;
  pe_ops : proc_ops;
  pe_data : tunable
}.

(** The entries created by [hmbird_proc_init] with
    [HMBIRD_CREATE_PROC_ENTRY_DATA], in order. *)
Definition hmbird_proc_entries : list proc_entry :=
  [ mk_entry HMBIRD_SCHED_PROC_DIR "scx_enable" scx_enable_proc_ops scx_enable;
    mk_entry HMBIRD_SCHED_PROC_DIR "partial_ctrl" hmbird_common_proc_ops partial_enable;
    mk_entry HMBIRD_SCHED_PROC_DIR "cpuctrl_high" hmbird_common_proc_ops cpuctrl_high_ratio;
    mk_entry HMBIRD_SCHED_PROC_DIR "cpuctrl_low" hmbird_common_proc_ops cpuctrl_low_ratio;
    mk_entry HMBIRD_SCHED_PROC_DIR "slim_stats" hmbird_common_proc_ops slim_stats;
    mk_entry HMBIRD_SCHED_PROC_DIR "hmbirdcore_debug" hmbird_common_proc_ops hmbirdcore_debug;
    mk_entry HMBIRD_SCHED_PROC_DIR "slim_for_app" hmbird_common_proc_ops slim_for_app;
    mk_entry HMBIRD_SCHED_PROC_DIR "misfit_ds" hmbird_common_proc_ops misfit_ds;
    mk_entry HMBIRD_SCHED_PROC_DIR "scx_shadow_tick_enable" hmbird_common_proc_ops highres_tick_ctrl;
    mk_entry HMBIRD_SCHED_PROC_DIR "highres_tick_ctrl_dbg" hmbird_common_proc_ops highres_tick_ctrl_dbg;
    mk_entry HMBIRD_SCHED_PROC_DIR "cpu7_tl" hmbird_common_proc_ops cpu7_tl;
    mk_entry HMBIRD_SCHED_PROC_DIR "cpu_cluster_masks" cpu_cluster_masks_proc_ops cpu_cluster_masks;
    mk_entry HMBIRD_SCHED_PROC_DIR "save_gov" save_gov_proc_ops save_gov;
    mk_entry HMBIRD_SCHED_PROC_DIR "heartbeat" hmbird_common_proc_ops heartbeat;
    mk_entry HMBIRD_SCHED_PROC_DIR "heartbeat_enable" hmbird_common_proc_ops heartbeat_enable;
    mk_entry HMBIRD_SCHED_PROC_DIR "watchdog_enable" hmbird_common_proc_ops watchdog_enable;
    mk_entry HMBIRD_SCHED_PROC_DIR "isolate_ctrl" hmbird_common_proc_ops isolate_ctrl;
    mk_entry HMBIRD_SCHED_PROC_DIR "parctrl_high_ratio" hmbird_common_proc_ops parctrl_high_ratio;
    mk_entry HMBIRD_SCHED_PROC_DIR "parctrl_low_ratio" hmbird_common_proc_ops parctrl_low_ratio;
    mk_entry HMBIRD_SCHED_PROC_DIR "isoctrl_high_ratio" hmbird_common_proc_ops isoctrl_high_ratio;
    mk_entry HMBIRD_SCHED_PROC_DIR "isoctrl_low_ratio" hmbird_common_proc_ops isoctrl_low_ratio;
    mk_entry HMBIRD_SCHED_PROC_DIR "iso_free_rescue" hmbird_common_proc_ops iso_free_rescue;
    mk_entry HMBIRD_SCHED_PROC_DIR "parctrl_high_ratio_l" hmbird_common_proc_ops parctrl_high_ratio_l;
    mk_entry HMBIRD_SCHED_PROC_DIR "parctrl_low_ratio_l" hmbird_common_proc_ops parctrl_low_ratio_l;
    mk_entry LOAD_TRACK_DIR "slim_walt_ctrl" slim_walt_ctrl_proc_ops slim_walt_ctrl;
    mk_entry LOAD_TRACK_DIR "slim_walt_dump" hmbird_common_proc_ops slim_walt_dump;
    mk_entry LOAD_TRACK_DIR "slim_walt_policy" hmbird_common_proc_ops slim_walt_policy;
    mk_entry LOAD_TRACK_DIR "frame_per_sec" sched_ravg_window_frame_per_sec_proc_ops
             sched_ravg_window_frame_per_sec;
    mk_entry SLIM_FREQ_GOV_DIR "slim_gov_debug" hmbird_common_proc_ops slim_gov_debug;
    mk_entry SLIM_FREQ_GOV_DIR "scx_gov_ctrl" hmbird_common_proc_ops scx_gov_ctrl ].

(** A write to an entry: the handler runs on the cell the entry was
    created with. *)
Definition proc_write (ts : tunables) (e : proc_entry) (cf : cpufreq)
    (buf : list ascii) (count : Z) : option Z * tunables * list effect :=
  let '(ret, v, log) :=
    proc_ops_write (pe_ops e) cf buf count (ts (pe_data e)) in
  (ret, store ts (pe_data e) v, log).

(** ** The sequence file of a read *)

Inductive seq_item :=
| Seq_printf (fmt : string) (args : list Z)
| Seq_puts (s : string).

(** [hmbird_common_show]: the cell printed with [%d]. *)
Definition hmbird_common_show (ts : tunables) (t : tunable) : Z * list seq_item :=
  (0, [Seq_printf "%d\n" [ts t]]).

(** A [u64] division; [None] stands for the trap on a zero divisor. *)
Definition div_u64_checked (a b : Z) : option Z :=
  if b =? 0 then None else Some (a / b).

(** The sampling loop of [hmbird_stats_proc_show]. *)
Definition stats_collect (m : machine) : Z * Z :=
  fold_left
    (fun (acc : Z * Z) cpu =>
       let '(total_nr_running, total_nr_switches) := acc in
       let r := cpu_rq m cpu in
       (u64 (total_nr_running + nr_running r),
        u64 (total_nr_switches + nr_switches r)))
    (cpu_online_mask m) (0, 0).

(** The indices [0 .. n-1] of a fixed-width table. *)
Definition indices (n : nat) : list Z := map Z.of_nat (seq 0 n).

Definition gdsq_rows (m : machine) (online_cpus : Z) : list seq_item :=
  map (fun i =>
         if (i <? online_cpus) && (i <? NR_CPUS m) then
           let r := cpu_rq m i in
           Seq_printf "gdsq_cnt[%d]:%lu, %lu\n"
                      [i; nr_running r; Z.land (nr_switches r) 0xFFFF]
         else Seq_printf "gdsq_cnt[%d]:0, 0\n" [i])
      (indices 10).

Definition pcp_timeout_rows (m : machine) (online_cpus current_time : Z)
  : list seq_item :=
  map (fun i =>
         if (i <? online_cpus) && (i <? NR_CPUS m) then
           let r := cpu_rq m i in
           let cpu_util :=
             if nr_running r >? 0 then current_time mod 1000 else 0 in
           Seq_printf "pcp_timeout_cnt[%d]:%llu\n" [i; cpu_util]
         else Seq_printf "pcp_timeout_cnt[%d]:0\n" [i])
      (indices 8).

Definition pcp_ldsq_rows (m : machine) (online_cpus current_time : Z)
  : list seq_item :=
  map (fun i =>
         if (i <? online_cpus) && (i <? NR_CPUS m) then
           let r := cpu_rq m i in
           let local_load := u64 (nr_running r) in
           let cpu_freq_ratio := Z.shiftr current_time 10 mod 100 in
           Seq_printf "pcp_ldsq_cnt[%d]:%llu, %llu\n"
                      [i; local_load; cpu_freq_ratio]
         else Seq_printf "pcp_ldsq_cnt[%d]:0, 0\n" [i])
      (indices 8).

Definition pcp_enql_rows (m : machine) (online_cpus : Z) : list seq_item :=
  map (fun i =>
         if (i <? online_cpus) && (i <? NR_CPUS m) then
           let r := cpu_rq m i in
           let enqueue_activity :=
             Z.land (Z.shiftr (nr_switches r) 8) 0xFF in
           Seq_printf "pcp_enql_cnt[%d]:%llu\n" [i; enqueue_activity]
         else Seq_printf "pcp_enql_cnt[%d]:0\n" [i])
      (indices 8).

Definition cpu_load_rows (m : machine) : list seq_item :=
  flat_map (fun cpu =>
              if cpu <? 8 then
                let r := cpu_rq m cpu in
                [Seq_printf "CPU[%d] Load: %lu, Switches: %lu\n"
                            [cpu; nr_running r;
                             Z.land (nr_switches r) 0xFFFFFF]]
              else [])
           (cpu_online_mask m).

(** The [seq_printf]/[seq_puts] calls of [hmbird_stats_proc_show], in
    order, on the locals computed before them. *)
Definition stats_output (ts : tunables) (m : machine)
    (current_time online_cpus total_nr_running total_nr_switches
     avg_load_per_cpu : Z) : list seq_item :=
  [ Seq_printf "global stat:%llu, %llu\n" [total_nr_running; current_time];
    Seq_printf "cpu_allow_fail:%d, %d\n" [0; online_cpus];
    Seq_printf "rt_cnt:%llu, %llu\n" [total_nr_switches; avg_load_per_cpu];
    Seq_puts "key_task_cnt:0, 0\n";
    Seq_puts "switch_idx:0, 0\n";
    Seq_puts "timeout_cnt:0, 0\n";
    Seq_puts "total_dsp_cnt:0, 0\n";
    Seq_puts "move_rq_cnt:0, 0\n";
    Seq_puts "select_cpu:0, 0\n" ]
  ++ gdsq_rows m online_cpus
  ++ [ Seq_puts "err_idx:0, 0, 0, 0, 0\n" ]
  ++ pcp_timeout_rows m online_cpus current_time
  ++ pcp_ldsq_rows m online_cpus current_time
  ++ pcp_enql_rows m online_cpus
  ++ [ Seq_printf "SCX Enabled: %d\n" [ts scx_enable];
       Seq_printf "Partial Enable: %d\n" [ts partial_enable];
       Seq_printf "Slim Stats: %d\n" [ts slim_stats];
       Seq_printf "Heartbeat: %d\n" [ts heartbeat];
       Seq_printf "Misfit DS: %d\n" [ts misfit_ds];
       Seq_printf "Highres Tick Ctrl: %u\n" [u32 (ts highres_tick_ctrl)];
       Seq_printf "Watchdog Enable: %d\n" [ts watchdog_enable];
       Seq_printf "SCX Exit Type: %d\n" [scx_exit_type m];
       Seq_printf "SCX Rejected Tasks: %lld\n" [scx_nr_rejected m];
       Seq_printf "Sched Ravg Window Frame Per Sec: %d\n"
                  [ts sched_ravg_window_frame_per_sec];
       Seq_printf "Total Online CPUs: %d\n" [online_cpus];
       Seq_printf "Total Running Tasks: %llu\n" [total_nr_running];
       Seq_printf "Average Load Per CPU: %llu\n" [avg_load_per_cpu];
       Seq_printf "Total Context Switches: %llu\n" [total_nr_switches];
       Seq_printf "System Uptime Ticks: %llu\n" [Z.shiftr current_time 20] ]
  ++ cpu_load_rows m
  ++ [ Seq_printf "CPU Control High Ratio: %d\n" [ts cpuctrl_high_ratio];
       Seq_printf "CPU Control Low Ratio: %d\n" [ts cpuctrl_low_ratio];
       Seq_printf "Isolation Control: %d\n" [ts isolate_ctrl];
       Seq_printf "Governor Control: %d\n" [ts scx_gov_ctrl] ].

(** [hmbird_stats_proc_show]: the return value and what was written to
    the sequence file; [None] if the average had trapped. *)
Definition hmbird_stats_proc_show (ts : tunables) (m : machine)
  : option (Z * list seq_item) :=
  let current_time := sched_clock m in
  let online_cpus := s32 (num_online_cpus m) in
  let '(total_nr_running, total_nr_switches) := stats_collect m in
  match (if online_cpus >? 0
         then div_u64_checked total_nr_running (u64 online_cpus)
         else Some 0) with
  | None => None
  | Some avg_load_per_cpu =>
      Some (0, stats_output ts m current_time online_cpus
                 total_nr_running total_nr_switches avg_load_per_cpu)
  end.

(** The tunables whose value the report prints. *)
Definition reported (t : tunable) : bool :=
  match t with
  | scx_enable | partial_enable | slim_stats | heartbeat | misfit_ds
  | highres_tick_ctrl | watchdog_enable | sched_ravg_window_frame_per_sec
  | cpuctrl_high_ratio | cpuctrl_low_ratio | isolate_ctrl | scx_gov_ctrl => true
  | _ => false
  end.

(** The value the report shows for a tunable it prints. *)
Definition reported_value (ts : tunables) (t : tunable) : Z :=
  match t with
  | highres_tick_ctrl => u32 (ts t)
  | _ => ts t
  end.

(** The arguments of every formatted line of a report. *)
Definition printed_args (items : list seq_item) : list (string * list Z) :=
  flat_map (fun it => match it with
                      | Seq_printf fmt args => [(fmt, args)]
                      | Seq_puts _ => []
                      end) items.

(** The lines of a report whose format starts with a given label. *)
Definition rows_labelled (label : string) (items : list seq_item)
  : list seq_item :=
  filter (fun it => match it with
                    | Seq_printf fmt _ => prefix label fmt
                    | Seq_puts s => prefix label s
                    end) items.

(** ** The whole control plane: both files in one compilation unit *)

Record kernel := mk_kernel {
  k_policy : policy;
  k_tunables : tunables
}.

Definition kernel_static : kernel := mk_kernel policy_static tunables_static.

(** A write to a proc entry, seen on the whole state. *)
Definition kernel_proc_write (k : kernel) (e : proc_entry) (cf : cpufreq)
    (buf : list ascii) (count : Z) : option Z * kernel :=
  let '(ret, ts, _) := proc_write (k_tunables k) e cf buf count in
  (ret, mk_kernel (k_policy k) ts).

(** A read of the statistics entry, seen on the whole state. *)
Definition kernel_stats_read (k : kernel) (m : machine)
  : option (Z * list seq_item) * kernel :=
  (hmbird_stats_proc_show (k_tunables k) m, k).

(** ** Auxiliary notions for the proofs *)

(** The queue lengths of a list of processors, summed. *)
Definition queue_sum (m : machine) (l : list Z) : Z :=
  fold_right (fun cpu acc => nr_running (cpu_rq m cpu) + acc) 0 l.

Definition switch_sum (m : machine) (l : list Z) : Z :=
  fold_right (fun cpu acc => nr_switches (cpu_rq m cpu) + acc) 0 l.

(** The overload diagnostics of a list of processors against a bound. *)
Definition overload_log (m : machine) (bound : Z) (l : list Z) : list effect :=
  flat_map (fun cpu =>
              if nr_running (cpu_rq m cpu) >? bound
              then [Printk KERN_DEBUG "CPU %d overloaded: %lu tasks\n"
                           [cpu; nr_running (cpu_rq m cpu)]]
              else []) l.

(** The threshold after an adjusting pass, in plain arithmetic. *)
Definition adjusted (threshold total n : Z) : Z :=
  if total >? 3 * n then Z.min (threshold + 5) 95
  else if total <? n then Z.max (threshold - 5) 50
  else threshold.

(** ** Concrete snapshots

    [snapshot clock queues]: processors [0 .. n-1] online with the
    given queue lengths, processor 0 executing, on an 8-processor
    build. *)
Definition snapshot (clock : Z) (queues : list Z) : machine :=
  mk_machine clock
             (indices (List.length queues))
             (fun cpu => mk_rq (nth (Z.to_nat cpu) queues 0) 0)
             0 8 0 0.

(** A four-processor policy as initialisation leaves it, last run at
    [last]. *)
Definition policy_4cpu (last : Z) : policy := mk_policy true 75 75 last.

Definition threshold_in_range (p : policy) : Prop :=
  50 <= cpu_performance_threshold p <= 95.

(** The interval of the rate limit, in clock units (nanoseconds). *)
Definition interval_ns (p : policy) : Z := load_balance_interval p * 1000000.

(** Invocations each of which comes less than [span] after the one
    before it. *)
Fixpoint closely_spaced (span prev : Z) (ms : list machine) : Prop :=
  match ms with
  | [] => True
  | m :: ms' =>
      prev <= sched_clock m < prev + span /\
      closely_spaced span (sched_clock m) ms'
  end.

(** Invocations all of which come less than [span] after time [t0]. *)
Definition within_interval (span t0 : Z) (ms : list machine) : Prop :=
  Forall (fun m => t0 <= sched_clock m < t0 + span) ms.

(** The three-tier table of the design document: threshold and
    interval by number of online processors. *)
Definition three_tier (n : Z) : Z * Z :=
  if n >=? 8 then (85, 50) else if n >=? 4 then (75, 75) else (70, 100).

(** A run in which the threshold parameter is stored to after
    initialisation. *)
Definition run_with_param_store : list (event * machine) :=
  [ (Ev_init 200000000 0, snapshot 200000000 [1; 1; 1; 1]);
    (Ev_param_store Param_cpu_performance_threshold 200,
     snapshot 300000000 [1; 1; 1; 1]) ].

(** ** The write path, seen from the caller *)

(** The bytes of a literal. *)
Definition bytes_of (s : string) : list ascii := list_ascii_of_string s.

(** The text [set_proc_buf_val] hands to [kstrtoint] when the copy of
    [count < 5] bytes succeeds. *)
Definition parsed_text (bytes : list ascii) : list ascii :=
  strstrip (cstring (bytes ++ repeat NUL (5 - List.length bytes))).

(** Decimal text as the design document has it: an optional minus
    sign and the digits of the number, most significant first. *)
Definition decimal_text (n : Z) : list ascii :=
  bytes_of (DecimalString.NilZero.string_of_int (Z.to_int n)).

(** Reading of decimal text in base ten, following the design
    document's words: an optional sign, then one or more decimal
    digits, nothing else. *)
Fixpoint base10_digits (s : list ascii) (acc : Z) : option Z :=
  match s with
  | [] => Some acc
  | c :: s' =>
      if (48 <=? code c) && (code c <=? 57)
      then base10_digits s' (acc * 10 + (code c - 48))
      else None
  end.

Definition base10_value (s : list ascii) : option Z :=
  match s with
  | [] => None
  | c :: s' =>
      if code c =? 45 then
        match s' with
        | [] => None
        | _ => option_map Z.opp (base10_digits s' 0)
        end
      else base10_digits s 0
  end.

(** The numbers whose decimal text fits the four bytes the write path
    accepts. *)
Definition four_byte_numbers : list Z :=
  map (fun k => Z.of_nat k - 999) (seq 0 (Z.to_nat 10999)).

(** The write path stores [n] when given the decimal text of [n]. *)
Definition stores_decimal (n : Z) : bool :=
  let s := decimal_text n in
  (Z.of_nat (List.length s) <=? 4) &&
  match base10_value s with
  | Some v => v =? n
  | None => false
  end &&
  match kstrtoll (parsed_text s) 0 with
  | KOk v => (v =? n) && (v =? s32 v)
  | KErr _ => false
  end.

(** The entries whose write handler parses its input: all but
    [save_gov]. *)
Definition parses_input (ops : proc_ops) : bool :=
  match ops with
  | save_gov_proc_ops => false
  | _ => true
  end.

(** What a write returns to its caller ([None] if it faults instead
    of returning), and the store it leaves. *)
Definition write_result (ts : tunables) (e : proc_entry) (cf : cpufreq)
    (buf : list ascii) (count : Z) : option Z :=
  fst (fst (proc_write ts e cf buf count)).

Definition write_store (ts : tunables) (e : proc_entry) (cf : cpufreq)
    (buf : list ascii) (count : Z) : tunables :=
  snd (fst (proc_write ts e cf buf count)).

(** Two states of the cpufreq core: four present processors, each
    with a policy of its own; and the same with processor 2 lacking
    one. *)
Definition cpufreq_4cpu : cpufreq :=
  mk_cpufreq [0; 1; 2; 3] (fun cpu => Some cpu).

Definition cpufreq_gap : cpufreq :=
  mk_cpufreq [0; 1; 2; 3] (fun cpu => if cpu =? 2 then None else Some cpu).

(** Two of the entries of [hmbird_proc_init]. *)
Definition entry_cpu7_tl : proc_entry :=
  mk_entry HMBIRD_SCHED_PROC_DIR "cpu7_tl" hmbird_common_proc_ops cpu7_tl.

Definition entry_save_gov : proc_entry :=
  mk_entry HMBIRD_SCHED_PROC_DIR "save_gov" save_gov_proc_ops save_gov.

(** ** Further notions for runs *)

(** What an event logs and sends. *)
Definition policy_step_effects (p : policy) (e : event) (m : machine)
  : list effect :=
  match e with
  | Ev_init init_time ret => snd (build_policy_init p m init_time ret)
  | Ev_hotplug action hcpu => snd (policy_cpu_callback p m action hcpu)
  | Ev_exit exit_time => snd (build_policy_exit p m exit_time)
  | Ev_param_store _ _ => []
  end.

(** The effects of a run, in order. *)
Fixpoint policy_run_effects (p : policy) (evs : list (event * machine))
  : list effect :=
  match evs with
  | [] => []
  | (e, m) :: evs' =>
      policy_step_effects p e m
      ++ policy_run_effects (policy_step p e m) evs'
  end.

(** Invocations each of which comes at least [span] after the one
    before it (the first after time [prev]), on a 64-bit clock. *)
Fixpoint spaced_out (span prev : Z) (ms : list machine) : Prop :=
  match ms with
  | [] => True
  | m :: ms' =>
      prev + span <= sched_clock m < U64_MOD /\
      spaced_out span (sched_clock m) ms'
  end.

(** What a read of an entry prints: [hmbird_common_show] on its cell. *)
Definition read_entry (ts : tunables) (e : proc_entry) : list seq_item :=
  snd (hmbird_common_show ts (pe_data e)).

(** The numbers whose decimal text and a line feed fit four bytes. *)
Definition three_byte_numbers : list Z :=
  map (fun k => Z.of_nat k - 99) (seq 0 (Z.to_nat 1099)).

Definition LF : ascii := ascii_of_N 10.

(** The write path stores [n] when given the decimal text of [n]
    followed by a line feed. *)
Definition stores_decimal_line (n : Z) : bool :=
  let s := decimal_text n ++ [LF] in
  (Z.of_nat (List.length s) <=? 4) &&
  match kstrtoll (parsed_text s) 0 with
  | KOk v => (v =? n) && (v =? s32 v)
  | KErr _ => false
  end.

(** The [k]-th argument of a formatted row lies in [0, bound). *)
Definition arg_in_range (k : nat) (bound : Z) (it : seq_item) : Prop :=
  match it with
  | Seq_printf _ args => 0 <= nth k args 0 < bound
  | Seq_puts _ => True
  end.

(** The entry of the unsigned tunable [highres_tick_ctrl]. *)
Definition entry_scx_shadow_tick_enable : proc_entry :=
  mk_entry HMBIRD_SCHED_PROC_DIR "scx_shadow_tick_enable"
           hmbird_common_proc_ops highres_tick_ctrl.

(** * Properties *)

(** ** Machine arithmetic *)

Lemma u64_small (z : Z) : 0 <= z < U64_MOD -> u64 z = z.
Proof. intros H. unfold u64. apply Z.mod_small. exact H. Qed.

Lemma s32_small (z : Z) : INT_MIN <= z <= INT_MAX -> s32 z = z.
Proof.
  unfold s32, INT_MIN, INT_MAX. intros H.
  rewrite Z.mod_small by lia. lia.
Qed.

Lemma u64_range (z : Z) : 0 <= u64 z < U64_MOD.
Proof. unfold u64, U64_MOD. apply Z.mod_pos_bound. lia. Qed.

Lemma s32_range (z : Z) : INT_MIN <= s32 z <= INT_MAX.
Proof.
  unfold s32, INT_MIN, INT_MAX.
  pose proof (Z.mod_pos_bound (z + 2 ^ 31) (2 ^ 32)). lia.
Qed.

(** ** The sampling loop *)

Lemma num_online_cpus_nonneg (m : machine) : 0 <= num_online_cpus m.
Proof. unfold num_online_cpus. lia. Qed.

Lemma queue_sum_bound (m : machine) (l : list Z) :
  Forall (fun cpu => 0 <= nr_running (cpu_rq m cpu) <= UINT_MAX /\
                     0 <= nr_switches (cpu_rq m cpu) < U64_MOD) l ->
  0 <= queue_sum m l <= Z.of_nat (List.length l) * UINT_MAX.
Proof.
  induction 1 as [|cpu l [Hc _] _ IH]; simpl.
  - lia.
  - unfold UINT_MAX in *. lia.
Qed.

Lemma collect_loop (m : machine) (n bound : Z) (l : list Z) :
  u64 (s32 (n * 2)) = bound ->
  forall total need log,
    Forall (fun cpu => 0 <= nr_running (cpu_rq m cpu)) l ->
    0 <= total ->
    total + queue_sum m l < U64_MOD ->
    fold_left (collect_step m n) l (total, need, log) =
    (total + queue_sum m l,
     need || existsb (fun cpu => nr_running (cpu_rq m cpu) >? bound) l,
     log ++ overload_log m bound l).
Proof.
  intros Hb. induction l as [|cpu l IH]; intros total need log Hall Ht Hs.
  - simpl. rewrite Z.add_0_r, orb_false_r, app_nil_r. reflexivity.
  - apply Forall_cons_iff in Hall as [Hc Hl].
    assert (Hq : 0 <= queue_sum m l).
    { clear - Hl. induction Hl; simpl; lia. }
    simpl in Hs |- *. rewrite Hb.
    rewrite (u64_small (total + nr_running (cpu_rq m cpu))) by lia.
    destruct (nr_running (cpu_rq m cpu) >? bound) eqn:E.
    + rewrite IH by (assumption || lia).
      rewrite orb_true_r. simpl. rewrite <- app_assoc. simpl.
      f_equal. f_equal. lia.
    + rewrite IH by (assumption || lia).
      rewrite orb_false_l. simpl. f_equal. f_equal. lia.
Qed.

Lemma wf_machine_bounds (m : machine) :
  wf_machine m ->
  s32 (num_online_cpus m) = num_online_cpus m /\
  u64 (s32 (num_online_cpus m * 2)) = 2 * num_online_cpus m /\
  u64 (s32 (num_online_cpus m * 3)) = 3 * num_online_cpus m /\
  u64 (num_online_cpus m) = num_online_cpus m /\
  0 <= total_queue_length m < U64_MOD.
Proof.
  intros (_ & Hn & Hall & _).
  pose proof (num_online_cpus_nonneg m) as H0.
  pose proof (queue_sum_bound m _ Hall) as Hq.
  fold (num_online_cpus m) in Hq.
  change (queue_sum m (cpu_online_mask m)) with (total_queue_length m) in Hq.
  unfold INT_MAX, UINT_MAX, INT_MIN, U64_MOD in *.
  repeat split.
  - apply s32_small. unfold INT_MIN, INT_MAX. lia.
  - rewrite s32_small by (unfold INT_MIN, INT_MAX; lia).
    rewrite u64_small by (unfold U64_MOD; lia). lia.
  - rewrite s32_small by (unfold INT_MIN, INT_MAX; lia).
    rewrite u64_small by (unfold U64_MOD; lia). lia.
  - apply u64_small. unfold U64_MOD. lia.
  - lia.
  - nia.
Qed.

Lemma collect_load_spec (m : machine) :
  wf_machine m ->
  collect_load m (s32 (num_online_cpus m)) =
  (total_queue_length m,
   existsb (overloaded m) (cpu_online_mask m),
   overload_log m (2 * num_online_cpus m) (cpu_online_mask m)).
Proof.
  intros Hwf.
  destruct (wf_machine_bounds m Hwf) as (Hs & H2 & _ & _ & Ht).
  destruct Hwf as (_ & _ & Hall & _).
  unfold collect_load. rewrite Hs.
  rewrite (collect_loop m _ _ _ H2).
  - reflexivity.
  - eapply Forall_impl; [|exact Hall]. simpl. intros a Ha. lia.
  - lia.
  - change (queue_sum m (cpu_online_mask m)) with (total_queue_length m). lia.
Qed.

Lemma adjust_threshold_spec (m : machine) (t : Z) :
  wf_machine m ->
  INT_MIN + 5 <= t <= INT_MAX - 5 ->
  adjust_threshold t (total_queue_length m) (s32 (num_online_cpus m)) =
  adjusted t (total_queue_length m) (num_online_cpus m).
Proof.
  intros Hwf Ht.
  destruct (wf_machine_bounds m Hwf) as (Hs & _ & H3 & H1 & _).
  unfold adjust_threshold, adjusted. rewrite Hs, H3, H1.
  rewrite !s32_small by (unfold INT_MIN, INT_MAX in *; lia).
  reflexivity.
Qed.

(** A pass that is not rate limited, with the sampling loop resolved. *)
Lemma optimize_pass (p : policy) (m : machine) :
  wf_machine m ->
  rate_limited p (sched_clock m) = false ->
  optimize_cpu_performance p m =
  (mk_policy (policy_optimization_enabled p)
             (adjust_threshold (cpu_performance_threshold p)
                (total_queue_length m) (s32 (num_online_cpus m)))
             (load_balance_interval p)
             (sched_clock m),
   overload_log m (2 * num_online_cpus m) (cpu_online_mask m) ++
   if existsb (overloaded m) (cpu_online_mask m)
      && policy_optimization_enabled p
   then Printk KERN_INFO "Triggering system-wide load rebalancing\n" []
        :: kick_all m
   else []).
Proof.
  intros Hwf Hg. unfold optimize_cpu_performance.
  rewrite Hg, (collect_load_spec m Hwf). simpl.
  unfold set_cpu_performance_threshold, set_last_optimization_time. simpl.
  destruct (existsb (overloaded m) (cpu_online_mask m)
            && policy_optimization_enabled p).
  - reflexivity.
  - rewrite app_nil_r. reflexivity.
Qed.

(** A rate-limited invocation returns at once. *)
Lemma optimize_limited (p : policy) (m : machine) :
  rate_limited p (sched_clock m) = true ->
  optimize_cpu_performance p m = (p, []).
Proof.
  intros Hg. unfold optimize_cpu_performance. rewrite Hg. reflexivity.
Qed.

(** Whatever the snapshot, an invocation leaves the enable flag and
    the interval alone. *)
Lemma optimize_frame (p : policy) (m : machine) :
  policy_optimization_enabled (fst (optimize_cpu_performance p m)) =
    policy_optimization_enabled p /\
  load_balance_interval (fst (optimize_cpu_performance p m)) =
    load_balance_interval p.
Proof.
  unfold optimize_cpu_performance.
  destruct (rate_limited p (sched_clock m)); [split; reflexivity|].
  destruct (collect_load m (s32 (num_online_cpus m))) as [[tl nb] lg].
  split; reflexivity.
Qed.

Ltac solve_wf_machine :=
  unfold wf_machine, UINT_MAX, U64_MOD, INT_MAX; cbn;
  repeat split; try lia;
  repeat constructor; cbn; intuition (try lia; try discriminate).

(** ** The adaptive threshold *)

(** C1: in a pass that is not rate limited, with [n] online processors
    and [total] the sum of their queue lengths, the threshold becomes
    [min (t + 5) 95] when [total > 3 * n], [max (t - 5) 50] when
    [total < n], and is left as it is when [n <= total <= 3 * n]. *)
Theorem C1_threshold_adjustment (p : policy) (m : machine) :
  wf_machine m ->
  threshold_steppable p ->
  rate_limited p (sched_clock m) = false ->
  (total_queue_length m > 3 * num_online_cpus m ->
   cpu_performance_threshold (fst (optimize_cpu_performance p m)) =
   Z.min (cpu_performance_threshold p + 5) 95) /\
  (total_queue_length m < num_online_cpus m ->
   cpu_performance_threshold (fst (optimize_cpu_performance p m)) =
   Z.max (cpu_performance_threshold p - 5) 50) /\
  (num_online_cpus m <= total_queue_length m <= 3 * num_online_cpus m ->
   cpu_performance_threshold (fst (optimize_cpu_performance p m)) =
   cpu_performance_threshold p).
Proof.
  intros Hwf Ht Hg.
  rewrite (optimize_pass p m Hwf Hg). cbn [fst cpu_performance_threshold].
  rewrite (adjust_threshold_spec m _ Hwf Ht). unfold adjusted.
  repeat split; intros H.
  - destruct (Z.gtb_spec (total_queue_length m) (3 * num_online_cpus m));
      [reflexivity | lia].
  - pose proof (num_online_cpus_nonneg m).
    destruct (Z.gtb_spec (total_queue_length m) (3 * num_online_cpus m));
      [lia|].
    destruct (Z.ltb_spec (total_queue_length m) (num_online_cpus m));
      [reflexivity | lia].
  - destruct (Z.gtb_spec (total_queue_length m) (3 * num_online_cpus m));
      [lia|].
    destruct (Z.ltb_spec (total_queue_length m) (num_online_cpus m));
      [lia | reflexivity].
Qed.

(** Four processors with thirteen queued tasks ([3 * 4 + 1]): the
    threshold goes from 75 to 80. *)
Lemma C1_threshold_adjustment_witness :
  cpu_performance_threshold
    (fst (optimize_cpu_performance (policy_4cpu 0)
            (snapshot 200000000 [4; 3; 3; 3]))) = 80.
Proof.
  refine (proj1 (C1_threshold_adjustment (policy_4cpu 0)
                   (snapshot 200000000 [4; 3; 3; 3]) _ _ _) _).
  - solve_wf_machine.
  - vm_compute. split; discriminate.
  - reflexivity.
  - reflexivity.
Defined.

(** ** Overload detection and the rebalance fan-out *)

Lemma kicks_app (l1 l2 : list effect) : kicks (l1 ++ l2) = kicks l1 ++ kicks l2.
Proof. apply flat_map_app. Qed.

Lemma flagged_app (l1 l2 : list effect) :
  flagged (l1 ++ l2) = flagged l1 ++ flagged l2.
Proof. apply flat_map_app. Qed.

Lemma kicks_overload_log (m : machine) (bound : Z) (l : list Z) :
  kicks (overload_log m bound l) = [].
Proof.
  induction l as [|cpu l IH]; [reflexivity|].
  unfold overload_log in *. simpl. rewrite kicks_app, IH.
  destruct (nr_running (cpu_rq m cpu) >? bound); reflexivity.
Qed.

Lemma flagged_overload_log (m : machine) (bound : Z) (l : list Z) :
  flagged (overload_log m bound l) =
  filter (fun cpu => nr_running (cpu_rq m cpu) >? bound) l.
Proof.
  induction l as [|cpu l IH]; [reflexivity|].
  unfold overload_log in *. simpl. rewrite flagged_app, IH.
  destruct (nr_running (cpu_rq m cpu) >? bound); reflexivity.
Qed.

Lemma kicks_kick_all (m : machine) :
  kicks (kick_all m) =
  filter (fun cpu => negb (cpu =? smp_processor_id m)) (cpu_online_mask m).
Proof.
  unfold kick_all.
  induction (filter _ (cpu_online_mask m)) as [|cpu l IH]; [reflexivity|].
  simpl. f_equal. exact IH.
Qed.

Lemma flagged_kick_all (m : machine) : flagged (kick_all m) = [].
Proof.
  unfold kick_all.
  induction (filter _ (cpu_online_mask m)) as [|cpu l IH]; [reflexivity|].
  simpl. exact IH.
Qed.

(** The sampling loop sends nothing, whatever the snapshot. *)
Lemma kicks_collect_loop (m : machine) (n : Z) (l : list Z) :
  forall total need log,
    kicks (snd (fold_left (collect_step m n) l (total, need, log))) =
    kicks log.
Proof.
  induction l as [|cpu l IH]; intros total need log; [reflexivity|].
  simpl. destruct (nr_running (cpu_rq m cpu) >? u64 (s32 (n * 2))).
  - rewrite IH, kicks_app. simpl. apply app_nil_r.
  - apply IH.
Qed.

(** With the enable flag off, no invocation kicks a processor. *)
Lemma optimize_disabled_no_kick (p : policy) (m : machine) :
  policy_optimization_enabled p = false ->
  kicks (snd (optimize_cpu_performance p m)) = [].
Proof.
  intros Hen. unfold optimize_cpu_performance.
  destruct (rate_limited p (sched_clock m)); [reflexivity|].
  pose proof (kicks_collect_loop m (s32 (num_online_cpus m))
                (cpu_online_mask m) 0 false []) as Hk.
  fold (collect_load m (s32 (num_online_cpus m))) in Hk.
  destruct (collect_load m (s32 (num_online_cpus m))) as [[tl nb] lg].
  simpl in *. rewrite Hen, andb_false_r. exact Hk.
Qed.

(** C3: in a pass with [n] online processors, the processors flagged
    overloaded are exactly those whose queue is longer than [2 * n];
    processors are kicked exactly when one is flagged and the enable
    flag is set, and then every online processor but the executing
    one is kicked, once; the pass run by [build_policy_exit], which
    clears the flag first, kicks none. *)
Theorem C3_overload_and_fanout (p : policy) (m : machine) :
  wf_machine m ->
  rate_limited p (sched_clock m) = false ->
  flagged (snd (optimize_cpu_performance p m)) =
    filter (fun cpu => nr_running (cpu_rq m cpu) >? 2 * num_online_cpus m)
           (cpu_online_mask m) /\
  kicks (snd (optimize_cpu_performance p m)) =
    (if existsb (fun cpu => nr_running (cpu_rq m cpu) >? 2 * num_online_cpus m)
                (cpu_online_mask m)
        && policy_optimization_enabled p
     then filter (fun cpu => negb (cpu =? smp_processor_id m))
                 (cpu_online_mask m)
     else []) /\
  NoDup (kicks (snd (optimize_cpu_performance p m))) /\
  (forall (p' : policy) (m' : machine) (exit_time : Z),
      kicks (snd (build_policy_exit p' m' exit_time)) = []).
Proof.
  intros Hwf Hg.
  rewrite (optimize_pass p m Hwf Hg). cbn [snd].
  rewrite flagged_app, kicks_app, flagged_overload_log, kicks_overload_log.
  change (existsb (overloaded m) (cpu_online_mask m)) with
    (existsb (fun cpu => nr_running (cpu_rq m cpu) >? 2 * num_online_cpus m)
             (cpu_online_mask m)).
  assert (Hk : kicks
            (if existsb (fun cpu => nr_running (cpu_rq m cpu)
                                    >? 2 * num_online_cpus m)
                        (cpu_online_mask m)
                && policy_optimization_enabled p
             then Printk KERN_INFO
                         "Triggering system-wide load rebalancing\n" []
                  :: kick_all m
             else []) =
          (if existsb (fun cpu => nr_running (cpu_rq m cpu)
                                  >? 2 * num_online_cpus m)
                      (cpu_online_mask m)
              && policy_optimization_enabled p
           then filter (fun cpu => negb (cpu =? smp_processor_id m))
                       (cpu_online_mask m)
           else [])).
  { destruct (_ && _); [|reflexivity]. simpl. apply kicks_kick_all. }
  rewrite app_nil_l, Hk.
  split; [|split; [|split]].
  - destruct (_ && _); simpl.
    + rewrite flagged_kick_all. apply app_nil_r.
    + apply app_nil_r.
  - reflexivity.
  - destruct (_ && _); [|constructor].
    apply NoDup_filter. apply Hwf.
  - intros p' m' exit_time. unfold build_policy_exit.
    pose proof (optimize_disabled_no_kick
                  (set_policy_optimization_enabled p' false) m' eq_refl) as H.
    destruct (optimize_cpu_performance
                (set_policy_optimization_enabled p' false) m') as [q lg].
    simpl in *. rewrite kicks_app, H. reflexivity.
Qed.

(** Four processors with nine tasks each, processor 0 executing: all
    four are flagged and processors 1, 2 and 3 are kicked. *)
Lemma C3_overload_and_fanout_witness :
  flagged (snd (optimize_cpu_performance (policy_4cpu 0)
                  (snapshot 200000000 [9; 9; 9; 9]))) = [0; 1; 2; 3] /\
  kicks (snd (optimize_cpu_performance (policy_4cpu 0)
                (snapshot 200000000 [9; 9; 9; 9]))) = [1; 2; 3].
Proof.
  assert (Hwf : wf_machine (snapshot 200000000 [9; 9; 9; 9]))
    by solve_wf_machine.
  destruct (C3_overload_and_fanout (policy_4cpu 0)
              (snapshot 200000000 [9; 9; 9; 9]) Hwf eq_refl)
    as (Hf & Hk & _).
  split.
  - rewrite Hf. reflexivity.
  - rewrite Hk. reflexivity.
Defined.

(** ** The rate limit *)

Lemma optimize_last_time (p : policy) (m : machine) :
  rate_limited p (sched_clock m) = false ->
  last_optimization_time (fst (optimize_cpu_performance p m)) = sched_clock m.
Proof.
  intros Hg. unfold optimize_cpu_performance. rewrite Hg.
  destruct (collect_load m (s32 (num_online_cpus m))) as [[tl nb] lg].
  reflexivity.
Qed.

Lemma rate_limited_within (p : policy) (t : Z) :
  0 <= load_balance_interval p <= INT_MAX ->
  last_optimization_time p <= t < last_optimization_time p + interval_ns p ->
  rate_limited p t = true.
Proof.
  unfold rate_limited, interval_ns, INT_MAX. intros Hi Ht.
  rewrite (u64_small (load_balance_interval p)) by (unfold U64_MOD; lia).
  rewrite (u64_small (load_balance_interval p * 1000000))
    by (unfold U64_MOD; lia).
  rewrite u64_small by (unfold U64_MOD; lia).
  apply Z.ltb_lt. lia.
Qed.

Lemma rate_limited_beyond (p : policy) (t : Z) :
  0 <= load_balance_interval p <= INT_MAX ->
  0 <= last_optimization_time p ->
  last_optimization_time p + interval_ns p <= t < U64_MOD ->
  rate_limited p t = false.
Proof.
  unfold rate_limited, interval_ns, INT_MAX. intros Hi Hl Ht.
  rewrite (u64_small (load_balance_interval p)) by (unfold U64_MOD; lia).
  rewrite (u64_small (load_balance_interval p * 1000000))
    by (unfold U64_MOD; lia).
  rewrite u64_small by lia.
  apply Z.ltb_ge. lia.
Qed.

(** C2: an invocation that is not rate limited records the current
    time, and every invocation made less than the interval after it
    returns at once: the state is the one the first invocation left
    and nothing is logged or sent. *)
Theorem C2_rate_limit (p : policy) (m0 : machine) (ms : list machine) :
  0 <= load_balance_interval p <= INT_MAX ->
  rate_limited p (sched_clock m0) = false ->
  within_interval (interval_ns p) (sched_clock m0) ms ->
  last_optimization_time (fst (optimize_cpu_performance p m0)) =
    sched_clock m0 /\
  optimize_many (fst (optimize_cpu_performance p m0)) ms =
    (fst (optimize_cpu_performance p m0), []).
Proof.
  intros Hi Hg Hms.
  pose proof (optimize_last_time p m0 Hg) as Hl.
  destruct (optimize_frame p m0) as [_ Hint].
  split; [exact Hl|].
  set (p1 := fst (optimize_cpu_performance p m0)) in *.
  induction Hms as [|m ms Hm _ IH]; [reflexivity|].
  simpl. rewrite optimize_limited.
  - rewrite IH. reflexivity.
  - apply rate_limited_within.
    + rewrite Hint. exact Hi.
    + unfold interval_ns in *. rewrite Hl, Hint. exact Hm.
Qed.

(** A pass at 100 ms followed by invocations at 120 ms and 170 ms,
    with the 75 ms interval of a four-processor system. *)
Lemma C2_rate_limit_witness :
  optimize_many
    (fst (optimize_cpu_performance (policy_4cpu 0)
            (snapshot 100000000 [9; 9; 9; 9])))
    [snapshot 120000000 [9; 9; 9; 9]; snapshot 170000000 [0; 0; 0; 0]] =
  (fst (optimize_cpu_performance (policy_4cpu 0)
          (snapshot 100000000 [9; 9; 9; 9])), []).
Proof.
  refine (proj2 (C2_rate_limit (policy_4cpu 0)
                   (snapshot 100000000 [9; 9; 9; 9]) _ _ _ _)).
  - vm_compute. split; discriminate.
  - reflexivity.
  - repeat constructor; vm_compute; discriminate.
Defined.

(** C2 with "spaced less than the interval apart" read as a bound on
    the gap between successive invocations does not hold: with the
    75 ms interval, invocations at 100, 150 and 200 ms are 50 ms
    apart, the second is rate limited, and the third is a full pass
    again (it records the time, raises the threshold and kicks the
    other processors). *)
Lemma C2_counterexample :
  rate_limited (policy_4cpu 0) 100000000 = false /\
  closely_spaced (interval_ns (policy_4cpu 0)) 100000000
    [snapshot 150000000 [9; 9; 9; 9]; snapshot 200000000 [9; 9; 9; 9]] /\
  fst (optimize_cpu_performance (policy_4cpu 0)
         (snapshot 100000000 [1; 1; 1; 1])) =
    mk_policy true 75 75 100000000 /\
  fst (optimize_many (mk_policy true 75 75 100000000)
         [snapshot 150000000 [9; 9; 9; 9]; snapshot 200000000 [9; 9; 9; 9]]) =
    mk_policy true 80 75 200000000 /\
  kicks (snd (optimize_many (mk_policy true 75 75 100000000)
         [snapshot 150000000 [9; 9; 9; 9]; snapshot 200000000 [9; 9; 9; 9]])) =
    [1; 2; 3].
Proof.
  split; [reflexivity|]. split.
  - simpl. unfold interval_ns. simpl. lia.
  - split; [reflexivity|]. split; reflexivity.
Qed.

(** ** The threshold interval *)

Lemma adjust_threshold_range (t total n : Z) :
  50 <= t <= 95 ->
  50 <= adjust_threshold t total n <= 95 /\
  Z.abs (adjust_threshold t total n - t) <= 5.
Proof.
  intros Ht. unfold adjust_threshold.
  rewrite (s32_small (t + 5)), (s32_small (t - 5))
    by (unfold INT_MIN, INT_MAX; lia).
  destruct (total >? u64 (s32 (n * 3))); [lia|].
  destruct (total <? u64 n); lia.
Qed.

Lemma optimize_threshold_range (p : policy) (m : machine) :
  threshold_in_range p ->
  threshold_in_range (fst (optimize_cpu_performance p m)) /\
  Z.abs (cpu_performance_threshold (fst (optimize_cpu_performance p m))
         - cpu_performance_threshold p) <= 5.
Proof.
  unfold threshold_in_range, optimize_cpu_performance. intros Ht.
  destruct (rate_limited p (sched_clock m)); [simpl; lia|].
  destruct (collect_load m (s32 (num_online_cpus m))) as [[tl nb] lg].
  simpl. apply adjust_threshold_range. exact Ht.
Qed.

Lemma init_parameters_range (p : policy) (n : Z) :
  threshold_in_range (init_parameters p n).
Proof.
  unfold threshold_in_range, init_parameters.
  destruct (n >=? 8); [simpl; lia|].
  destruct (n >=? 4); simpl; lia.
Qed.

Lemma module_event_range (p : policy) (e : event) (m : machine) :
  is_module_event e = true ->
  threshold_in_range p ->
  threshold_in_range (policy_step p e m).
Proof.
  intros He Hp. destruct e as [it ret | action hcpu | et | prm v];
    try discriminate; simpl.
  - unfold build_policy_init.
    destruct (negb (ret =? 0)); [exact Hp|].
    pose proof (optimize_threshold_range
                  (init_parameters p (s32 (num_online_cpus m))) m
                  (init_parameters_range _ _)) as [H _].
    destruct (optimize_cpu_performance
                (init_parameters p (s32 (num_online_cpus m))) m).
    exact H.
  - unfold policy_cpu_callback.
    pose proof (optimize_threshold_range p m Hp) as [H _].
    destruct (optimize_cpu_performance p m).
    destruct (_ =? CPU_ONLINE); [exact H|].
    destruct (_ =? CPU_DOWN_PREPARE); [exact H | exact Hp].
  - unfold build_policy_exit.
    pose proof (optimize_threshold_range
                  (set_policy_optimization_enabled p false) m Hp) as [H _].
    destruct (optimize_cpu_performance
                (set_policy_optimization_enabled p false) m).
    exact H.
Qed.

(** C4, as the code has it: along initialisation, hotplug events and
    the exit path the threshold stays in [50, 95] once it is there (as
    it is from the static initialiser on), and a pass that starts
    from such a value moves it by at most 5.  A store through the
    module parameter is not covered. *)
Theorem C4_threshold_interval
    (p : policy) (evs : list (event * machine)) (m : machine) :
  threshold_in_range p ->
  Forall (fun em => is_module_event (fst em) = true) evs ->
  threshold_in_range (policy_run p evs) /\
  threshold_in_range
    (fst (optimize_cpu_performance (policy_run p evs) m)) /\
  Z.abs (cpu_performance_threshold
           (fst (optimize_cpu_performance (policy_run p evs) m))
         - cpu_performance_threshold (policy_run p evs)) <= 5.
Proof.
  intros Hp Hev.
  assert (Hr : threshold_in_range (policy_run p evs)).
  { revert p Hp. induction Hev as [|[e m'] evs He _ IH]; intros p Hp.
    - exact Hp.
    - simpl. apply IH. apply module_event_range; assumption. }
  split; [exact Hr|]. apply optimize_threshold_range. exact Hr.
Qed.

(** From the static state: initialisation on eight idle processors,
    a hotplug event and the exit path. *)
Lemma C4_threshold_interval_witness :
  threshold_in_range
    (policy_run policy_static
       [ (Ev_init 200000000 0, snapshot 200000000 [0; 0; 0; 0; 0; 0; 0; 0]);
         (Ev_hotplug CPU_ONLINE 3, snapshot 400000000 [9; 9; 9; 9]);
         (Ev_exit 900000000, snapshot 900000000 [9; 9; 9; 9]) ]).
Proof.
  refine (proj1 (C4_threshold_interval policy_static _
                   (snapshot 0 []) _ _)).
  - vm_compute. split; discriminate.
  - repeat constructor.
Defined.

(** The threshold is also a module parameter of mode 0644: after
    initialisation a store of 200 leaves it at 200, outside
    [50, 95], and the next pass on a loaded system takes it to 95,
    a move of 105. *)
Lemma C4_counterexample :
  module_param_writable Param_cpu_performance_threshold = true /\
  cpu_performance_threshold (policy_run policy_static run_with_param_store)
    = 200 /\
  ~ threshold_in_range (policy_run policy_static run_with_param_store) /\
  cpu_performance_threshold
    (fst (optimize_cpu_performance
            (policy_run policy_static run_with_param_store)
            (snapshot 400000000 [9; 9; 9; 9]))) = 95.
Proof.
  split; [reflexivity|]. split; [reflexivity|]. split; [|reflexivity].
  unfold threshold_in_range.
  change (cpu_performance_threshold
            (policy_run policy_static run_with_param_store)) with 200.
  lia.
Qed.

(** ** Initialisation *)

Lemma init_parameters_tier (p : policy) (n : Z) :
  (cpu_performance_threshold (init_parameters p n),
   load_balance_interval (init_parameters p n)) = three_tier n /\
  last_optimization_time (init_parameters p n) = last_optimization_time p.
Proof.
  unfold init_parameters, three_tier.
  destruct (n >=? 8); [split; reflexivity|].
  destruct (n >=? 4); split; reflexivity.
Qed.

Lemma three_tier_interval (n : Z) :
  snd (three_tier n) = 50 \/ snd (three_tier n) = 75
  \/ snd (three_tier n) = 100.
Proof.
  unfold three_tier. destruct (n >=? 8); [auto|].
  destruct (n >=? 4); auto.
Qed.

(** C5, as the code has it: when the notifier registers,
    [build_policy_init] sets threshold and interval from the
    three-tier table and then calls the optimizer once on that state,
    so the interval on return is the table's.  The call goes through
    the rate limit like any other: with the time stamp at zero it is
    a pass exactly when the clock has reached the interval, and
    before that the state on return is the table state. *)
Theorem C5_initialisation (p : policy) (m : machine) (init_time : Z) :
  wf_machine m ->
  last_optimization_time p = 0 ->
  (cpu_performance_threshold (init_parameters p (num_online_cpus m)),
   load_balance_interval (init_parameters p (num_online_cpus m)))
  = three_tier (num_online_cpus m) /\
  fst (fst (build_policy_init p m init_time 0)) =
  fst (optimize_cpu_performance
         (init_parameters p (num_online_cpus m)) m) /\
  load_balance_interval (fst (fst (build_policy_init p m init_time 0)))
  = snd (three_tier (num_online_cpus m)) /\
  (rate_limited (init_parameters p (num_online_cpus m)) (sched_clock m)
   = false <->
   snd (three_tier (num_online_cpus m)) * 1000000 <= sched_clock m) /\
  (sched_clock m < snd (three_tier (num_online_cpus m)) * 1000000 ->
   fst (fst (build_policy_init p m init_time 0)) =
   init_parameters p (num_online_cpus m)).
Proof.
  intros Hwf Hl.
  destruct (wf_machine_bounds m Hwf) as (Hs & _).
  destruct (init_parameters_tier p (num_online_cpus m)) as [Htier Hlast].
  set (q := init_parameters p (num_online_cpus m)) in *.
  assert (Hint : load_balance_interval q = snd (three_tier (num_online_cpus m)))
    by (rewrite <- Htier; reflexivity).
  assert (Hb : fst (fst (build_policy_init p m init_time 0)) =
               fst (optimize_cpu_performance q m)).
  { unfold build_policy_init. simpl. rewrite Hs. fold q.
    destruct (optimize_cpu_performance q m). reflexivity. }
  assert (Hrange : 0 <= load_balance_interval q <= INT_MAX).
  { rewrite Hint. unfold INT_MAX.
    destruct (three_tier_interval (num_online_cpus m)) as [H|[H|H]];
      rewrite H; lia. }
  assert (Hclock : 0 <= sched_clock m < U64_MOD) by apply Hwf.
  assert (Hgate : rate_limited q (sched_clock m) = false <->
                  snd (three_tier (num_online_cpus m)) * 1000000
                  <= sched_clock m).
  { rewrite <- Hint. split.
    - intros Hg.
      destruct (Z_lt_le_dec (sched_clock m)
                  (load_balance_interval q * 1000000)) as [Hlt|Hge];
        [|exact Hge].
      rewrite rate_limited_within in Hg; [discriminate|exact Hrange|].
      unfold interval_ns. rewrite Hlast, Hl. lia.
    - intros Hge. apply rate_limited_beyond; [exact Hrange| |].
      + rewrite Hlast, Hl. lia.
      + unfold interval_ns. rewrite Hlast, Hl. lia. }
  split; [exact Htier|]. split; [exact Hb|]. split.
  - rewrite Hb. destruct (optimize_frame q m) as [_ H]. rewrite H. exact Hint.
  - split; [exact Hgate|].
    intros Hlt. rewrite Hb, optimize_limited; [reflexivity|].
    pose proof (proj1 Hgate) as Hpass.
    destruct (rate_limited q (sched_clock m)); [reflexivity|].
    specialize (Hpass eq_refl). lia.
Qed.

(** Four processors, clock at 200 ms: the table gives (75, 75), the
    call is a pass, and with thirteen queued tasks the threshold on
    return is 80. *)
Lemma C5_initialisation_witness :
  fst (fst (build_policy_init policy_static
              (snapshot 200000000 [4; 3; 3; 3]) 200000000 0)) =
  mk_policy true 80 75 200000000.
Proof.
  rewrite (proj1 (proj2 (C5_initialisation policy_static
                           (snapshot 200000000 [4; 3; 3; 3]) 200000000
                           ltac:(solve_wf_machine) eq_refl))).
  reflexivity.
Defined.

(** Initialisation 10 ms after the clock started, on four loaded
    processors: the call is rate limited, so nothing is sampled, the
    time stamp stays at zero and the threshold stays at the table's
    75 although 36 tasks are queued. *)
Lemma C5_counterexample :
  total_queue_length (snapshot 10000000 [9; 9; 9; 9]) = 36 /\
  build_policy_init policy_static (snapshot 10000000 [9; 9; 9; 9])
                    10000000 0 =
  (mk_policy true 75 75 0, 0,
   [ Printk KERN_INFO "Enhanced build policy module loading...\n" [];
     Printk KERN_INFO "System info: %d online CPUs, init time: %llu\n"
            [4; 10000000];
     Printk KERN_INFO "Build policy module loaded successfully\n" [];
     Printk KERN_INFO "Performance threshold: %d%%, Balance interval: %dms\n"
            [75; 75] ]).
Proof. split; reflexivity. Qed.

(** ** The proc write path *)

Lemma _kstrtoull_error (s : list ascii) (base rv : Z) :
  _kstrtoull s base = KErr rv -> rv = - EINVAL \/ rv = - ERANGE.
Proof.
  unfold _kstrtoull.
  destruct (_parse_integer_fixup_radix s base) as [s' base'].
  destruct (_parse_integer s' base' 0 0 false) as [[[res n] ovf] rest].
  destruct ovf; [intros H; inversion H; auto|].
  destruct (n =? 0); [intros H; inversion H; auto|].
  destruct (if char_at rest 0 =? 10 then tl rest else rest);
    intros H; inversion H; auto.
Qed.

Lemma kstrtoll_error (s : list ascii) (base rv : Z) :
  kstrtoll s base = KErr rv -> rv = - EINVAL \/ rv = - ERANGE.
Proof.
  unfold kstrtoll, kstrtoull.
  destruct (char_at s 0 =? 45).
  - destruct (_kstrtoull (tl s) base) as [tmp|rv'] eqn:E.
    + destruct (s64 (- tmp) >? 0); intros H; inversion H; auto.
    + intros H; inversion H; subst. eapply _kstrtoull_error; eauto.
  - destruct (_kstrtoull _ base) as [tmp|rv'] eqn:E.
    + destruct (s64 tmp <? 0); intros H; inversion H; auto.
    + intros H; inversion H; subst. eapply _kstrtoull_error; eauto.
Qed.

(** [kstrtoint] answers zero and the parsed value, or an error and
    the cell as it was. *)
Lemma kstrtoint_cases (s : list ascii) (base res : Z) :
  (exists v, kstrtoll s base = KOk v /\ v = s32 v /\
             kstrtoint s base res = (0, v)) \/
  (exists rv, rv < 0 /\ kstrtoint s base res = (rv, res)).
Proof.
  unfold kstrtoint. destruct (kstrtoll s base) as [tmp|rv] eqn:E.
  - destruct (Z.eqb_spec tmp (s32 tmp)) as [Heq|Hne].
    + left. exists tmp. auto.
    + right. exists (- ERANGE). split; [reflexivity|reflexivity].
  - right. exists rv. split; [|reflexivity].
    destruct (kstrtoll_error _ _ _ E); subst; reflexivity.
Qed.

(** The outcomes of [set_proc_buf_val]: a stored value, or [-EFAULT]
    with the cell as it was. *)
Lemma set_proc_buf_val_cases (buf : list ascii) (count val : Z) :
  (exists bytes v,
      count < 5 /\ copy_from_user buf count = Some bytes /\
      kstrtoll (parsed_text bytes) 0 = KOk v /\ v = s32 v /\
      set_proc_buf_val buf count val = (0, v, [])) \/
  (exists log,
      (5 <= count \/ copy_from_user buf count = None \/
       exists bytes rv, copy_from_user buf count = Some bytes /\ rv < 0 /\
                        fst (kstrtoint (parsed_text bytes) 0 val) = rv) /\
      set_proc_buf_val buf count val = (- EFAULT, val, log)).
Proof.
  unfold set_proc_buf_val.
  destruct (Z.geb_spec count 5) as [Hc|Hc].
  { right. eexists. split; [left; exact Hc | reflexivity]. }
  destruct (copy_from_user buf count) as [bytes|] eqn:Ecopy.
  2:{ right. eexists. split; [right; left; reflexivity | reflexivity]. }
  fold (parsed_text bytes).
  destruct (kstrtoint_cases (parsed_text bytes) 0 val)
    as [(v & Hv & Hr & Hk) | (rv & Hrv & Hk)]; rewrite Hk.
  - left. exists bytes, v. simpl. repeat split; try assumption; lia.
  - right. simpl. destruct (Z.ltb_spec rv 0); [|lia].
    eexists. split; [|reflexivity].
    right; right. exists bytes, rv. rewrite Hk. auto.
Qed.

(** Every handler that parses is [set_proc_buf_val] followed by the
    same two-way return. *)
Lemma parsing_write_unfold (ops : proc_ops) cf buf count pval :
  parses_input ops = true ->
  proc_ops_write ops cf buf count pval =
  returned
    (let '(rv, pval', log) := set_proc_buf_val buf count pval in
     if negb (rv =? 0) then (- EFAULT, pval', log)
     else (s64 count, pval', log)).
Proof. destruct ops; intros H; try discriminate; reflexivity. Qed.


Lemma store_same (ts : tunables) (t t' : tunable) : store ts t (ts t) t' = ts t'.
Proof.
  unfold store. destruct (tunable_eq_dec t t'); [subst|]; reflexivity.
Qed.

Lemma store_eq (ts : tunables) (t : tunable) (v : Z) : store ts t v t = v.
Proof.
  unfold store. destruct (tunable_eq_dec t t); [reflexivity|contradiction].
Qed.

Lemma store_neq (ts : tunables) (t t' : tunable) (v : Z) :
  t <> t' -> store ts t v t' = ts t'.
Proof.
  intros H. unfold store. destruct (tunable_eq_dec t t');
    [contradiction|reflexivity].
Qed.

Lemma s64_small (z : Z) : - 2 ^ 63 <= z < 2 ^ 63 -> s64 z = z.
Proof.
  unfold s64, U64_MOD. intros H. rewrite Z.mod_small by lia. lia.
Qed.

Lemma four_byte_numbers_in (n : Z) :
  -999 <= n <= 9999 -> In n four_byte_numbers.
Proof.
  intros H. unfold four_byte_numbers. apply in_map_iff.
  exists (Z.to_nat (n + 999)). split; [lia|].
  apply in_seq. lia.
Qed.

Lemma stores_decimal_all : forallb stores_decimal four_byte_numbers = true.
Proof. vm_compute. reflexivity. Qed.

Lemma stores_decimal_ok (n : Z) : -999 <= n <= 9999 -> stores_decimal n = true.
Proof.
  intros H. pose proof stores_decimal_all as Hall.
  rewrite forallb_forall in Hall. apply Hall, four_byte_numbers_in, H.
Qed.

Lemma proc_write_parsing (ts : tunables) (e : proc_entry) cf buf count :
  parses_input (pe_ops e) = true ->
  0 <= count ->
  (exists bytes v,
      count < 5 /\ copy_from_user buf count = Some bytes /\
      kstrtoll (parsed_text bytes) 0 = KOk v /\ v = s32 v /\
      proc_write ts e cf buf count
      = (Some count, store ts (pe_data e) v, [])) \/
  (exists log,
      (5 <= count \/ copy_from_user buf count = None \/
       exists bytes rv, copy_from_user buf count = Some bytes /\ rv < 0 /\
           fst (kstrtoint (parsed_text bytes) 0 (ts (pe_data e))) = rv) /\
      proc_write ts e cf buf count
      = (Some (- EFAULT), store ts (pe_data e) (ts (pe_data e)), log)).
Proof.
  intros Hp Hc. unfold proc_write.
  rewrite (parsing_write_unfold _ _ _ _ _ Hp).
  destruct (set_proc_buf_val_cases buf count (ts (pe_data e)))
    as [(bytes & v & H5 & Hcopy & Hk & Hv & Hs) | (log & Hwhy & Hs)];
    rewrite Hs; simpl.
  - left. exists bytes, v. rewrite s64_small by lia. auto.
  - right. exists log. auto.
Qed.






(** ** The statistics report *)

Lemma stats_loop (m : machine) (l : list Z) :
  forall r s,
    Forall (fun cpu => 0 <= nr_running (cpu_rq m cpu)) l ->
    0 <= r -> r + queue_sum m l < U64_MOD ->
    fold_left
      (fun (acc : Z * Z) cpu =>
         let '(total_nr_running, total_nr_switches) := acc in
         let r := cpu_rq m cpu in
         (u64 (total_nr_running + nr_running r),
          u64 (total_nr_switches + nr_switches r)))
      l (r, u64 s)
    = (r + queue_sum m l, u64 (s + switch_sum m l)).
Proof.
  induction l as [|cpu l IH]; intros r s Hall Hr Hs.
  - simpl. rewrite !Z.add_0_r. reflexivity.
  - apply Forall_cons_iff in Hall as [Hc Hl].
    assert (Hq : 0 <= queue_sum m l).
    { clear - Hl. induction Hl; simpl; lia. }
    simpl in Hs |- *.
    rewrite (u64_small (r + nr_running (cpu_rq m cpu))) by lia.
    replace (u64 (u64 s + nr_switches (cpu_rq m cpu)))
      with (u64 (s + nr_switches (cpu_rq m cpu)))
      by (unfold u64; rewrite Zplus_mod_idemp_l; reflexivity).
    rewrite IH by (assumption || lia).
    f_equal; [lia|]. f_equal. lia.
Qed.

Lemma stats_collect_spec (m : machine) :
  wf_machine m ->
  stats_collect m = (total_queue_length m, u64 (total_switch_count m)).
Proof.
  intros Hwf.
  destruct (wf_machine_bounds m Hwf) as (_ & _ & _ & _ & Ht).
  destruct Hwf as (_ & _ & Hall & _).
  unfold stats_collect.
  change (0, 0) with (0, u64 0).
  rewrite stats_loop.
  - reflexivity.
  - eapply Forall_impl; [|exact Hall]. simpl. intros a Ha. lia.
  - lia.
  - change (queue_sum m (cpu_online_mask m)) with (total_queue_length m). lia.
Qed.

(** The report of a well-formed snapshot. *)
Lemma stats_show_spec (ts : tunables) (m : machine) :
  wf_machine m ->
  hmbird_stats_proc_show ts m =
  Some (0, stats_output ts m (sched_clock m) (num_online_cpus m)
             (total_queue_length m) (u64 (total_switch_count m))
             (if num_online_cpus m >? 0
              then total_queue_length m / num_online_cpus m else 0)).
Proof.
  intros Hwf.
  destruct (wf_machine_bounds m Hwf) as (Hs & _ & _ & H1 & _).
  unfold hmbird_stats_proc_show.
  rewrite (stats_collect_spec m Hwf), Hs, H1.
  destruct (Z.gtb_spec (num_online_cpus m) 0) as [Hpos|Hz]; [|reflexivity].
  unfold div_u64_checked.
  destruct (Z.eqb_spec (num_online_cpus m) 0); [lia|reflexivity].
Qed.

(** The average is never computed with a zero divisor, whatever the
    snapshot. *)
Lemma stats_show_total (ts : tunables) (m : machine) :
  hmbird_stats_proc_show ts m <> None.
Proof.
  unfold hmbird_stats_proc_show.
  destruct (stats_collect m) as [r s].
  destruct (Z.gtb_spec (s32 (num_online_cpus m)) 0) as [Hpos|Hz];
    [|discriminate].
  unfold div_u64_checked.
  pose proof (s32_range (num_online_cpus m)) as Hr.
  rewrite u64_small by (unfold INT_MAX, U64_MOD in *; lia).
  destruct (Z.eqb_spec (s32 (num_online_cpus m)) 0); [lia|discriminate].
Qed.

Ltac in_report :=
  repeat match goal with
         | |- In _ (_ ++ _) =>
             apply in_or_app; ((left; solve [in_report]) || right)
         | |- In _ (_ :: _) => (left; reflexivity) || right
         end.

(** C9: the average queue length the report prints is
    [total_queue_length / n] for [n > 0] online processors and 0 for
    none, and the division never has a zero divisor: the report is
    produced for every snapshot. *)
Theorem C9_average_queue_length (ts : tunables) (m : machine) :
  wf_machine m ->
  (exists items,
      hmbird_stats_proc_show ts m = Some (0, items) /\
      In (Seq_printf "Average Load Per CPU: %llu\n"
            [if num_online_cpus m >? 0
             then total_queue_length m / num_online_cpus m else 0]) items /\
      In (Seq_printf "rt_cnt:%llu, %llu\n"
            [u64 (total_switch_count m);
             if num_online_cpus m >? 0
             then total_queue_length m / num_online_cpus m else 0]) items) /\
  (forall (ts' : tunables) (m' : machine),
      hmbird_stats_proc_show ts' m' <> None).
Proof.
  intros Hwf. split; [|intros ts' m'; apply stats_show_total].
  eexists. split; [apply (stats_show_spec ts m Hwf)|].
  unfold stats_output. split; in_report.
Qed.

(** Three processors with queues 1, 2 and 3: the average printed is
    2; with no processor online it is 0. *)
Lemma C9_average_queue_length_witness :
  (exists items,
      hmbird_stats_proc_show tunables_static (snapshot 123456789 [1; 2; 3])
      = Some (0, items) /\
      In (Seq_printf "Average Load Per CPU: %llu\n" [2]) items) /\
  (exists items,
      hmbird_stats_proc_show tunables_static (snapshot 123456789 [])
      = Some (0, items) /\
      In (Seq_printf "Average Load Per CPU: %llu\n" [0]) items).
Proof.
  split.
  - destruct (C9_average_queue_length tunables_static
                (snapshot 123456789 [1; 2; 3]) ltac:(solve_wf_machine))
      as [(items & Hshow & Havg & _) _].
    exists items. split; [exact Hshow | exact Havg].
  - destruct (C9_average_queue_length tunables_static
                (snapshot 123456789 []) ltac:(solve_wf_machine))
      as [(items & Hshow & Havg & _) _].
    exists items. split; [exact Hshow | exact Havg].
Defined.

Lemma filter_map_all {A B : Type} (f : B -> bool) (g : A -> B) (l : list A) :
  (forall x, f (g x) = true) -> filter f (map g l) = map g l.
Proof.
  intros H. induction l as [|x l IH]; [reflexivity|].
  simpl. rewrite H, IH. reflexivity.
Qed.

Lemma filter_map_none {A B : Type} (f : B -> bool) (g : A -> B) (l : list A) :
  (forall x, f (g x) = false) -> filter f (map g l) = [].
Proof.
  intros H. induction l as [|x l IH]; [reflexivity|].
  simpl. rewrite H, IH. reflexivity.
Qed.

Lemma filter_flat_map_all {A B : Type} (f : B -> bool) (g : A -> list B)
    (l : list A) :
  (forall x, filter f (g x) = g x) -> filter f (flat_map g l) = flat_map g l.
Proof.
  intros H. induction l as [|x l IH]; [reflexivity|].
  simpl. rewrite filter_app, H, IH. reflexivity.
Qed.

Lemma filter_flat_map_none {A B : Type} (f : B -> bool) (g : A -> list B)
    (l : list A) :
  (forall x, filter f (g x) = []) -> filter f (flat_map g l) = [].
Proof.
  intros H. induction l as [|x l IH]; [reflexivity|].
  simpl. rewrite filter_app, H, IH. reflexivity.
Qed.

(** Filtering a report by label, block by block. *)
Ltac rows_by_label :=
  unfold rows_labelled, stats_output,
    gdsq_rows, pcp_timeout_rows, pcp_ldsq_rows, pcp_enql_rows, cpu_load_rows;
  rewrite !filter_app;
  repeat first
    [ rewrite filter_map_all
        by (intros ?; destruct (_ && _); reflexivity)
    | rewrite filter_map_none
        by (intros ?; destruct (_ && _); reflexivity)
    | rewrite filter_flat_map_all
        by (intros ?; destruct (_ <? _); reflexivity)
    | rewrite filter_flat_map_none
        by (intros ?; destruct (_ <? _); reflexivity) ];
  cbn [filter prefix app Ascii.eqb Bool.eqb andb];
  rewrite ?app_nil_r; reflexivity.

Lemma indices_in (n : nat) (x : Z) : 0 <= x < Z.of_nat n -> In x (indices n).
Proof.
  intros H. unfold indices. apply in_map_iff.
  exists (Z.to_nat x). split; [lia|]. apply in_seq. lia.
Qed.

Lemma cpu_load_rows_count (m : machine) :
  List.length (cpu_load_rows m) =
  List.length (filter (fun cpu => cpu <? 8) (cpu_online_mask m)).
Proof.
  unfold cpu_load_rows.
  induction (cpu_online_mask m) as [|cpu l IH]; [reflexivity|].
  simpl. rewrite length_app, IH.
  destruct (cpu <? 8); reflexivity.
Qed.

Lemma cpu_load_rows_length (m : machine) :
  wf_machine m -> (List.length (cpu_load_rows m) <= 8)%nat.
Proof.
  intros (Hnd & _ & _ & _ & Hpos).
  rewrite cpu_load_rows_count.
  change 8%nat with (List.length (indices 8)).
  apply NoDup_incl_length.
  - apply NoDup_filter. exact Hnd.
  - intros x Hx. apply filter_In in Hx as [Hin Hlt].
    rewrite Forall_forall in Hpos. specialize (Hpos x Hin).
    apply Z.ltb_lt in Hlt. apply indices_in. lia.
Qed.

Lemma stats_output_unreported (ts : tunables) (m : machine)
    (t : tunable) (v a b c d e : Z) :
  reported t = false ->
  stats_output (store ts t v) m a b c d e = stats_output ts m a b c d e.
Proof. destruct t; intros H; try discriminate; reflexivity. Qed.

Lemma stats_show_unreported (ts : tunables) (m : machine) (t : tunable) (v : Z) :
  reported t = false ->
  hmbird_stats_proc_show (store ts t v) m = hmbird_stats_proc_show ts m.
Proof.
  intros H. unfold hmbird_stats_proc_show.
  destruct (stats_collect m) as [r s].
  destruct (if s32 (num_online_cpus m) >? 0
            then div_u64_checked r (u64 (s32 (num_online_cpus m)))
            else Some 0); [|reflexivity].
  rewrite stats_output_unreported by exact H. reflexivity.
Qed.

Lemma fixed_row_in {A : Type} (row : Z -> A) (n : nat) (i : Z) :
  0 <= i < Z.of_nat n -> In (row i) (map row (indices n)).
Proof. intros Hi. apply in_map, indices_in, Hi. Qed.

Ltac in_report_by H :=
  repeat match goal with
         | |- In _ (_ ++ _) => apply in_or_app; ((left; exact H) || right)
         end.

(** C7, as the code has it: a read of the statistics entry changes no
    state and prints the aggregate totals, the fixed-width tables and
    the value of twelve of the tunables; the others do not show in
    it.  Row [i] of a fixed-width table (ten [gdsq_cnt] rows, eight
    rows in each [pcp_] table) shows the figures of the run queue of
    processor number [i] when [i] is below the number of online
    processors and below [NR_CPUS], and zeros otherwise; there is a
    [CPU[..]] row, with load and switch figure, for each online
    processor numbered below 8 and for no other. *)
Theorem C7_stats_report (k : kernel) (m : machine) :
  wf_machine m ->
  exists items,
    kernel_stats_read k m = (Some (0, items), k) /\
    In (Seq_printf "Total Online CPUs: %d\n" [num_online_cpus m]) items /\
    In (Seq_printf "Total Running Tasks: %llu\n" [total_queue_length m])
       items /\
    In (Seq_printf "Total Context Switches: %llu\n"
          [u64 (total_switch_count m)]) items /\
    (rows_labelled "gdsq_cnt[" items = gdsq_rows m (num_online_cpus m) /\
     List.length (gdsq_rows m (num_online_cpus m)) = 10%nat) /\
    (rows_labelled "pcp_timeout_cnt[" items
     = pcp_timeout_rows m (num_online_cpus m) (sched_clock m) /\
     List.length (pcp_timeout_rows m (num_online_cpus m) (sched_clock m))
     = 8%nat) /\
    (rows_labelled "pcp_ldsq_cnt[" items
     = pcp_ldsq_rows m (num_online_cpus m) (sched_clock m) /\
     List.length (pcp_ldsq_rows m (num_online_cpus m) (sched_clock m))
     = 8%nat) /\
    (rows_labelled "pcp_enql_cnt[" items
     = pcp_enql_rows m (num_online_cpus m) /\
     List.length (pcp_enql_rows m (num_online_cpus m)) = 8%nat) /\
    (rows_labelled "CPU[" items = cpu_load_rows m /\
     (List.length (cpu_load_rows m) <= 8)%nat) /\
    (forall i, 0 <= i < 10 ->
       In (if (i <? num_online_cpus m) && (i <? NR_CPUS m)
           then Seq_printf "gdsq_cnt[%d]:%lu, %lu\n"
                  [i; nr_running (cpu_rq m i);
                   Z.land (nr_switches (cpu_rq m i)) 0xFFFF]
           else Seq_printf "gdsq_cnt[%d]:0, 0\n" [i]) items) /\
    (forall i, 0 <= i < 8 ->
       In (if (i <? num_online_cpus m) && (i <? NR_CPUS m)
           then Seq_printf "pcp_timeout_cnt[%d]:%llu\n"
                  [i; if nr_running (cpu_rq m i) >? 0
                      then sched_clock m mod 1000 else 0]
           else Seq_printf "pcp_timeout_cnt[%d]:0\n" [i]) items) /\
    (forall i, 0 <= i < 8 ->
       In (if (i <? num_online_cpus m) && (i <? NR_CPUS m)
           then Seq_printf "pcp_ldsq_cnt[%d]:%llu, %llu\n"
                  [i; u64 (nr_running (cpu_rq m i));
                   Z.shiftr (sched_clock m) 10 mod 100]
           else Seq_printf "pcp_ldsq_cnt[%d]:0, 0\n" [i]) items) /\
    (forall i, 0 <= i < 8 ->
       In (if (i <? num_online_cpus m) && (i <? NR_CPUS m)
           then Seq_printf "pcp_enql_cnt[%d]:%llu\n"
                  [i; Z.land (Z.shiftr (nr_switches (cpu_rq m i)) 8) 0xFF]
           else Seq_printf "pcp_enql_cnt[%d]:0\n" [i]) items) /\
    (forall cpu, In cpu (cpu_online_mask m) -> cpu < 8 ->
       In (Seq_printf "CPU[%d] Load: %lu, Switches: %lu\n"
             [cpu; nr_running (cpu_rq m cpu);
              Z.land (nr_switches (cpu_rq m cpu)) 0xFFFFFF]) items) /\
    (forall row, In row (rows_labelled "CPU[" items) ->
       exists cpu,
         In cpu (cpu_online_mask m) /\ cpu < 8 /\
         row = Seq_printf "CPU[%d] Load: %lu, Switches: %lu\n"
                 [cpu; nr_running (cpu_rq m cpu);
                  Z.land (nr_switches (cpu_rq m cpu)) 0xFFFFFF]) /\
    (forall t, reported t = true ->
       exists fmt,
         In (Seq_printf fmt [reported_value (k_tunables k) t]) items) /\
    (forall t v, reported t = false ->
       hmbird_stats_proc_show (store (k_tunables k) t v) m
       = hmbird_stats_proc_show (k_tunables k) m).
Proof.
  intros Hwf. eexists. split.
  { unfold kernel_stats_read.
    rewrite (stats_show_spec (k_tunables k) m Hwf). reflexivity. }
  split; [unfold stats_output; in_report|].
  split; [unfold stats_output; in_report|].
  split; [unfold stats_output; in_report|].
  split; [split; [rows_by_label | reflexivity]|].
  split; [split; [rows_by_label | reflexivity]|].
  split; [split; [rows_by_label | reflexivity]|].
  split; [split; [rows_by_label | reflexivity]|].
  assert (Hcpu : rows_labelled "CPU["
                   (stats_output (k_tunables k) m (sched_clock m)
                      (num_online_cpus m) (total_queue_length m)
                      (u64 (total_switch_count m))
                      (if num_online_cpus m >? 0
                       then total_queue_length m / num_online_cpus m
                       else 0))
                 = cpu_load_rows m) by rows_by_label.
  split; [split; [exact Hcpu | apply cpu_load_rows_length, Hwf]|].
  split.
  { intros i Hi.
    pose proof (fixed_row_in
                  (fun i =>
                     if (i <? num_online_cpus m) && (i <? NR_CPUS m)
                     then Seq_printf "gdsq_cnt[%d]:%lu, %lu\n"
                            [i; nr_running (cpu_rq m i);
                             Z.land (nr_switches (cpu_rq m i)) 0xFFFF]
                     else Seq_printf "gdsq_cnt[%d]:0, 0\n" [i])
                  10 i Hi) as Hrow.
    change (In (if (i <? num_online_cpus m) && (i <? NR_CPUS m)
                then Seq_printf "gdsq_cnt[%d]:%lu, %lu\n"
                       [i; nr_running (cpu_rq m i);
                        Z.land (nr_switches (cpu_rq m i)) 0xFFFF]
                else Seq_printf "gdsq_cnt[%d]:0, 0\n" [i])
               (gdsq_rows m (num_online_cpus m))) in Hrow.
    unfold stats_output. in_report_by Hrow. }
  split.
  { intros i Hi.
    pose proof (fixed_row_in
                  (fun i =>
                     if (i <? num_online_cpus m) && (i <? NR_CPUS m)
                     then Seq_printf "pcp_timeout_cnt[%d]:%llu\n"
                            [i; if nr_running (cpu_rq m i) >? 0
                                then sched_clock m mod 1000 else 0]
                     else Seq_printf "pcp_timeout_cnt[%d]:0\n" [i])
                  8 i Hi) as Hrow.
    change (In (if (i <? num_online_cpus m) && (i <? NR_CPUS m)
                then Seq_printf "pcp_timeout_cnt[%d]:%llu\n"
                       [i; if nr_running (cpu_rq m i) >? 0
                           then sched_clock m mod 1000 else 0]
                else Seq_printf "pcp_timeout_cnt[%d]:0\n" [i])
               (pcp_timeout_rows m (num_online_cpus m) (sched_clock m)))
      in Hrow.
    unfold stats_output. in_report_by Hrow. }
  split.
  { intros i Hi.
    pose proof (fixed_row_in
                  (fun i =>
                     if (i <? num_online_cpus m) && (i <? NR_CPUS m)
                     then Seq_printf "pcp_ldsq_cnt[%d]:%llu, %llu\n"
                            [i; u64 (nr_running (cpu_rq m i));
                             Z.shiftr (sched_clock m) 10 mod 100]
                     else Seq_printf "pcp_ldsq_cnt[%d]:0, 0\n" [i])
                  8 i Hi) as Hrow.
    change (In (if (i <? num_online_cpus m) && (i <? NR_CPUS m)
                then Seq_printf "pcp_ldsq_cnt[%d]:%llu, %llu\n"
                       [i; u64 (nr_running (cpu_rq m i));
                        Z.shiftr (sched_clock m) 10 mod 100]
                else Seq_printf "pcp_ldsq_cnt[%d]:0, 0\n" [i])
               (pcp_ldsq_rows m (num_online_cpus m) (sched_clock m)))
      in Hrow.
    unfold stats_output. in_report_by Hrow. }
  split.
  { intros i Hi.
    pose proof (fixed_row_in
                  (fun i =>
                     if (i <? num_online_cpus m) && (i <? NR_CPUS m)
                     then Seq_printf "pcp_enql_cnt[%d]:%llu\n"
                            [i; Z.land (Z.shiftr (nr_switches (cpu_rq m i)) 8)
                                       0xFF]
                     else Seq_printf "pcp_enql_cnt[%d]:0\n" [i])
                  8 i Hi) as Hrow.
    change (In (if (i <? num_online_cpus m) && (i <? NR_CPUS m)
                then Seq_printf "pcp_enql_cnt[%d]:%llu\n"
                       [i; Z.land (Z.shiftr (nr_switches (cpu_rq m i)) 8)
                                  0xFF]
                else Seq_printf "pcp_enql_cnt[%d]:0\n" [i])
               (pcp_enql_rows m (num_online_cpus m))) in Hrow.
    unfold stats_output. in_report_by Hrow. }
  split.
  { intros cpu Hin Hlt.
    assert (Hrow : In (Seq_printf "CPU[%d] Load: %lu, Switches: %lu\n"
                         [cpu; nr_running (cpu_rq m cpu);
                          Z.land (nr_switches (cpu_rq m cpu)) 0xFFFFFF])
                      (cpu_load_rows m)).
    { unfold cpu_load_rows. apply in_flat_map. exists cpu.
      split; [exact Hin|].
      destruct (Z.ltb_spec cpu 8); [left; reflexivity | lia]. }
    unfold stats_output. in_report_by Hrow. }
  split.
  { intros row Hrow. rewrite Hcpu in Hrow.
    unfold cpu_load_rows in Hrow. apply in_flat_map in Hrow.
    destruct Hrow as (cpu & Hin & Hrow). exists cpu.
    destruct (Z.ltb_spec cpu 8); [|contradiction].
    destruct Hrow as [Hrow|[]]. auto. }
  split.
  - intros t Ht. unfold stats_output.
    destruct t; try discriminate; eexists; unfold reported_value; in_report.
  - intros t v Ht. apply stats_show_unreported, Ht.
Qed.

(** Three processors with queues 1, 2 and 3 and the static
    tunables. *)
Lemma C7_stats_report_witness :
  exists items,
    kernel_stats_read kernel_static (snapshot 123456789 [1; 2; 3])
    = (Some (0, items), kernel_static) /\
    In (Seq_printf "Total Running Tasks: %llu\n" [6]) items /\
    In (Seq_printf "gdsq_cnt[%d]:%lu, %lu\n" [2; 3; 0]) items /\
    In (Seq_printf "gdsq_cnt[%d]:0, 0\n" [3]) items /\
    In (Seq_printf "CPU[%d] Load: %lu, Switches: %lu\n" [1; 2; 0]) items.
Proof.
  destruct (C7_stats_report kernel_static (snapshot 123456789 [1; 2; 3])
              ltac:(solve_wf_machine))
    as (items & Hread & _ & Htotal & _ & _ & _ & _ & _ & _
        & Hgdsq & _ & _ & _ & Hcpu & _).
  exists items. split; [exact Hread|]. split; [exact Htotal|].
  split; [exact (Hgdsq 2 ltac:(lia))|].
  split; [exact (Hgdsq 3 ltac:(lia))|].
  refine (Hcpu 1 _ _); [simpl; tauto | lia].
Defined.

(** [cpu7_tl] is a registered tunable, and the report is the same
    whether it holds 70 or 99: its value is not in the report. *)
Lemma C7_counterexample :
  In entry_cpu7_tl hmbird_proc_entries /\
  tunables_static cpu7_tl = 70 /\
  store tunables_static cpu7_tl 99 cpu7_tl = 99 /\
  hmbird_stats_proc_show (store tunables_static cpu7_tl 99)
                         (snapshot 123456789 [1; 2; 3])
  = hmbird_stats_proc_show tunables_static (snapshot 123456789 [1; 2; 3]).
Proof.
  split; [simpl; tauto|]. split; [reflexivity|]. split; reflexivity.
Qed.

(** ** Who can write and read the threshold *)

(** C6, as the code has it: no write to a proc entry touches the
    policy variables, the threshold among them; the statistics report
    does not depend on the threshold, so it does not show it; the
    threshold is published as a module parameter of mode 0644, which
    can be read and stored to, and a store puts there any number
    that fits an [int]. *)
Theorem C6_threshold_exposure
    (k : kernel) (e : proc_entry) (cf : cpufreq)
    (buf : list ascii) (count : Z) (m : machine) (v : Z) :
  k_policy (snd (kernel_proc_write k e cf buf count)) = k_policy k /\
  fst (kernel_stats_read
         (mk_kernel (set_cpu_performance_threshold (k_policy k) v)
                    (k_tunables k)) m)
  = fst (kernel_stats_read k m) /\
  module_param_perm Param_cpu_performance_threshold = 420 /\
  module_param_readable Param_cpu_performance_threshold = true /\
  module_param_writable Param_cpu_performance_threshold = true /\
  cpu_performance_threshold
    (module_param_store (k_policy k) Param_cpu_performance_threshold v)
  = (if fits_int v then v else cpu_performance_threshold (k_policy k)).
Proof.
  split.
  - unfold kernel_proc_write.
    destruct (proc_write (k_tunables k) e cf buf count) as [[ret ts] log].
    reflexivity.
  - repeat split; try reflexivity.
    unfold module_param_store. simpl.
    destruct (fits_int v); reflexivity.
Qed.

(** Two states that differ in the threshold alone give the same
    report, so the report does not show the threshold; and the
    threshold can be stored to through its module parameter. *)
Lemma C6_counterexample :
  fst (kernel_stats_read
         (mk_kernel (mk_policy true 50 75 0) tunables_static)
         (snapshot 123456789 [1; 2; 3]))
  = fst (kernel_stats_read
           (mk_kernel (mk_policy true 95 75 0) tunables_static)
           (snapshot 123456789 [1; 2; 3])) /\
  module_param_writable Param_cpu_performance_threshold = true /\
  cpu_performance_threshold
    (module_param_store policy_static Param_cpu_performance_threshold 60)
  = 60.
Proof. split; [reflexivity|]. split; reflexivity. Qed.

(** * Further properties of the code *)

(** ** Module life cycle and the hotplug notifier *)

Lemma kicks_printk_only (log : list effect) :
  Forall (fun e => match e with Printk _ _ _ => True | _ => False end) log ->
  kicks log = [].
Proof.
  induction 1 as [|e log He _ IH]; [reflexivity|].
  destruct e; [exact IH | contradiction | contradiction].
Qed.

Lemma init_parameters_frame (p : policy) (n : Z) :
  policy_optimization_enabled (init_parameters p n)
  = policy_optimization_enabled p /\
  last_optimization_time (init_parameters p n) = last_optimization_time p.
Proof.
  unfold init_parameters.
  destruct (n >=? 8); [split; reflexivity|].
  destruct (n >=? 4); split; reflexivity.
Qed.

(** X1: [build_policy_init] returns what [register_cpu_notifier]
    answered.  When that is an error the policy variables are left as
    they were and nothing is sent; when it is zero the interval on
    return is the table's and the threshold is within 5 of the
    table's. *)
Theorem X1_init_outcome (p : policy) (m : machine) (init_time ret : Z) :
  snd (fst (build_policy_init p m init_time ret)) = ret /\
  (ret <> 0 ->
   fst (fst (build_policy_init p m init_time ret)) = p /\
   kicks (snd (build_policy_init p m init_time ret)) = []) /\
  (ret = 0 ->
   load_balance_interval (fst (fst (build_policy_init p m init_time ret)))
   = snd (three_tier (s32 (num_online_cpus m))) /\
   Z.abs (cpu_performance_threshold
            (fst (fst (build_policy_init p m init_time ret)))
          - fst (three_tier (s32 (num_online_cpus m)))) <= 5).
Proof.
  unfold build_policy_init.
  destruct (Z.eqb_spec ret 0) as [Hz|Hnz]; simpl negb; cbv iota.
  - subst ret.
    set (q := init_parameters p (s32 (num_online_cpus m))).
    destruct (init_parameters_tier p (s32 (num_online_cpus m))) as [Ht _].
    fold q in Ht.
    pose proof (optimize_threshold_range q m (init_parameters_range _ _))
      as [_ Hd].
    destruct (optimize_frame q m) as [_ Hi].
    destruct (optimize_cpu_performance q m) as [q' lg]. simpl in *.
    split; [reflexivity|]. split; [intros H; contradiction|].
    intros _. rewrite <- Ht. simpl. split; [exact Hi | exact Hd].
  - simpl. split; [reflexivity|].
    split; [intros _; split; reflexivity | intros H; contradiction].
Qed.

(** X2: the notifier ignores the [CPU_TASKS_FROZEN] bit: an action
    with the bit set is handled exactly as the action without it. *)
Theorem X2_hotplug_frozen_bit (p : policy) (m : machine) (action hcpu : Z) :
  policy_cpu_callback p m (Z.lor action CPU_TASKS_FROZEN) hcpu
  = policy_cpu_callback p m action hcpu.
Proof.
  unfold policy_cpu_callback.
  replace (Z.land (Z.lor action CPU_TASKS_FROZEN) (Z.lnot CPU_TASKS_FROZEN))
    with (Z.land action (Z.lnot CPU_TASKS_FROZEN)); [reflexivity|].
  rewrite Z.land_lor_distr_l.
  change (Z.land CPU_TASKS_FROZEN (Z.lnot CPU_TASKS_FROZEN)) with 0.
  rewrite Z.lor_0_r. reflexivity.
Qed.

(** X3: the notifier is rate limited like every caller: a hotplug
    event that arrives while the rate limit holds changes no policy
    variable, sends nothing, logs at most its own line and answers
    [NOTIFY_OK]. *)
Theorem X3_hotplug_rate_limited
    (p : policy) (m : machine) (action hcpu : Z) :
  rate_limited p (sched_clock m) = true ->
  fst (fst (policy_cpu_callback p m action hcpu)) = p /\
  snd (fst (policy_cpu_callback p m action hcpu)) = NOTIFY_OK /\
  kicks (snd (policy_cpu_callback p m action hcpu)) = [] /\
  (List.length (snd (policy_cpu_callback p m action hcpu)) <= 1)%nat.
Proof.
  intros Hg. unfold policy_cpu_callback.
  rewrite (optimize_limited p m Hg).
  destruct (_ =? CPU_ONLINE); [simpl; auto|].
  destruct (_ =? CPU_DOWN_PREPARE); simpl; auto.
Qed.

(** A processor coming online 20 ms after a pass, with the 75 ms
    interval. *)
Lemma X3_hotplug_rate_limited_witness :
  fst (fst (policy_cpu_callback (policy_4cpu 100000000)
              (snapshot 120000000 [9; 9; 9; 9]) CPU_ONLINE 3))
  = policy_4cpu 100000000.
Proof.
  exact (proj1 (X3_hotplug_rate_limited (policy_4cpu 100000000)
                  (snapshot 120000000 [9; 9; 9; 9]) CPU_ONLINE 3 eq_refl)).
Defined.

Lemma module_event_disabled (p : policy) (e : event) (m : machine) :
  is_module_event e = true ->
  policy_optimization_enabled p = false ->
  policy_optimization_enabled (policy_step p e m) = false /\
  kicks (policy_step_effects p e m) = [].
Proof.
  intros He Hen. destruct e as [it ret | action hcpu | et | prm v];
    try discriminate; simpl.
  - unfold build_policy_init.
    destruct (negb (ret =? 0)).
    { simpl. split; [exact Hen|reflexivity]. }
    set (q := init_parameters p (s32 (num_online_cpus m))).
    assert (Hq : policy_optimization_enabled q = false).
    { unfold q. rewrite (proj1 (init_parameters_frame _ _)). exact Hen. }
    pose proof (optimize_disabled_no_kick q m Hq) as Hk.
    destruct (optimize_frame q m) as [Hf _].
    destruct (optimize_cpu_performance q m) as [q' lg]. simpl in *.
    split; [congruence|]. rewrite kicks_app, Hk. reflexivity.
  - unfold policy_cpu_callback.
    pose proof (optimize_disabled_no_kick p m Hen) as Hk.
    destruct (optimize_frame p m) as [Hf _].
    destruct (optimize_cpu_performance p m) as [q' lg]. simpl in *.
    destruct (_ =? CPU_ONLINE); [simpl; split; [congruence|exact Hk]|].
    destruct (_ =? CPU_DOWN_PREPARE); simpl; split;
      (congruence || exact Hk || reflexivity || exact Hen).
  - unfold build_policy_exit.
    pose proof (optimize_disabled_no_kick
                  (set_policy_optimization_enabled p false) m eq_refl) as Hk.
    destruct (optimize_frame (set_policy_optimization_enabled p false) m)
      as [Hf _].
    destruct (optimize_cpu_performance
                (set_policy_optimization_enabled p false) m) as [q' lg].
    simpl in *. split; [exact Hf|].
    rewrite kicks_app, Hk. reflexivity.
Qed.

(** X4: with [policy_optimization_enabled] off, no initialisation,
    hotplug event or exit ever kicks a processor, and none of them
    turns the flag back on: only a store through the module parameter
    does. *)
Theorem X4_disabled_stays_silent
    (p : policy) (evs : list (event * machine)) :
  policy_optimization_enabled p = false ->
  Forall (fun em => is_module_event (fst em) = true) evs ->
  kicks (policy_run_effects p evs) = [] /\
  policy_optimization_enabled (policy_run p evs) = false.
Proof.
  intros Hen Hev. revert p Hen.
  induction Hev as [|[e m] evs He _ IH]; intros p Hen.
  - split; [reflexivity | exact Hen].
  - simpl in *.
    destruct (module_event_disabled p e m He Hen) as [Hen' Hk].
    destruct (IH _ Hen') as [IHk IHen].
    rewrite kicks_app, Hk, IHk. split; [reflexivity | exact IHen].
Qed.

(** The flag cleared through the parameter, then a loaded system
    seen by initialisation and by a hotplug event. *)
Lemma X4_disabled_stays_silent_witness :
  kicks (policy_run_effects
           (module_param_store policy_static
              Param_policy_optimization_enabled 0)
           [ (Ev_init 200000000 0, snapshot 200000000 [9; 9; 9; 9]);
             (Ev_hotplug CPU_ONLINE 3, snapshot 400000000 [9; 9; 9; 9]) ])
  = [].
Proof.
  refine (proj1 (X4_disabled_stays_silent
                   (module_param_store policy_static
                      Param_policy_optimization_enabled 0)
                   [ (Ev_init 200000000 0, snapshot 200000000 [9; 9; 9; 9]);
                     (Ev_hotplug CPU_ONLINE 3,
                      snapshot 400000000 [9; 9; 9; 9]) ]
                   eq_refl _)).
  repeat constructor.
Defined.

(** ** The optimizer over several passes *)

Lemma optimize_many_cons (p : policy) (m : machine) (ms : list machine) :
  fst (optimize_many p (m :: ms))
  = fst (optimize_many (fst (optimize_cpu_performance p m)) ms).
Proof.
  simpl. destruct (optimize_cpu_performance p m) as [p1 l1]. simpl.
  destruct (optimize_many p1 ms) as [p2 l2]. reflexivity.
Qed.

(** A pass on a well-formed snapshot, threshold in plain arithmetic. *)
Lemma optimize_pass_state (p : policy) (m : machine) :
  wf_machine m ->
  threshold_steppable p ->
  rate_limited p (sched_clock m) = false ->
  fst (optimize_cpu_performance p m)
  = mk_policy (policy_optimization_enabled p)
              (adjusted (cpu_performance_threshold p)
                        (total_queue_length m) (num_online_cpus m))
              (load_balance_interval p) (sched_clock m).
Proof.
  intros Hwf Ht Hg. rewrite (optimize_pass p m Hwf Hg). simpl.
  rewrite (adjust_threshold_spec m _ Hwf Ht). reflexivity.
Qed.

(** X5: under sustained overload the threshold climbs by 5 per pass
    and settles at 95: after [k] passes, each at least the interval
    after the one before and each seeing more than [3 * n] queued
    tasks, it is [min (t + 5 * k) 95]. *)
Theorem X5_overload_saturates (p : policy) (ms : list machine) :
  0 <= load_balance_interval p <= INT_MAX ->
  0 <= last_optimization_time p ->
  INT_MIN + 5 <= cpu_performance_threshold p <= 95 ->
  Forall wf_machine ms ->
  Forall (fun m => total_queue_length m > 3 * num_online_cpus m) ms ->
  spaced_out (interval_ns p) (last_optimization_time p) ms ->
  cpu_performance_threshold (fst (optimize_many p ms))
  = Z.min (cpu_performance_threshold p + 5 * Z.of_nat (List.length ms)) 95.
Proof.
  intros Hi Hl Ht Hwf. revert p Hi Hl Ht.
  induction Hwf as [|m ms Hm _ IH]; intros p Hi Hl Ht Hload Hsp.
  - simpl. lia.
  - apply Forall_cons_iff in Hload as [Hload1 Hload].
    destruct Hsp as [Hclock Hsp].
    assert (Hg : rate_limited p (sched_clock m) = false)
      by (apply rate_limited_beyond; assumption).
    assert (Hst : threshold_steppable p).
    { unfold threshold_steppable, INT_MAX in *. lia. }
    rewrite optimize_many_cons, (optimize_pass_state p m Hm Hst Hg).
    assert (Hadj : adjusted (cpu_performance_threshold p)
                     (total_queue_length m) (num_online_cpus m)
                   = Z.min (cpu_performance_threshold p + 5) 95).
    { unfold adjusted.
      destruct (Z.gtb_spec (total_queue_length m) (3 * num_online_cpus m));
        [reflexivity | lia]. }
    rewrite Hadj.
    set (p1 := mk_policy (policy_optimization_enabled p)
                 (Z.min (cpu_performance_threshold p + 5) 95)
                 (load_balance_interval p) (sched_clock m)).
    assert (IH1 := IH p1 Hi
                     ltac:(unfold interval_ns in *; simpl; lia)
                     ltac:(unfold INT_MIN, INT_MAX in *; simpl; lia)
                     Hload Hsp).
    rewrite IH1. simpl cpu_performance_threshold.
    rewrite length_cons, Nat2Z.inj_succ. lia.
Qed.

(** From 75, three overloaded passes 100 ms apart reach 90; a fifth
    would find 95. *)
Lemma X5_overload_saturates_witness :
  cpu_performance_threshold
    (fst (optimize_many (policy_4cpu 0)
            [ snapshot 100000000 [9; 9; 9; 9];
              snapshot 200000000 [9; 9; 9; 9];
              snapshot 300000000 [9; 9; 9; 9] ])) = 90.
Proof.
  refine (X5_overload_saturates (policy_4cpu 0)
            [ snapshot 100000000 [9; 9; 9; 9];
              snapshot 200000000 [9; 9; 9; 9];
              snapshot 300000000 [9; 9; 9; 9] ] _ _ _ _ _ _).
  - vm_compute. split; discriminate.
  - vm_compute. discriminate.
  - vm_compute. split; discriminate.
  - repeat (constructor; [solve_wf_machine|]). constructor.
  - repeat constructor.
  - vm_compute. repeat split; discriminate.
Defined.

(** X6: on a system that stays nearly idle the threshold drops by 5
    per pass and settles at 50: after [k] passes, each at least the
    interval after the one before and each seeing fewer queued tasks
    than online processors, it is [max (t - 5 * k) 50]. *)
Theorem X6_idle_saturates (p : policy) (ms : list machine) :
  0 <= load_balance_interval p <= INT_MAX ->
  0 <= last_optimization_time p ->
  50 <= cpu_performance_threshold p <= INT_MAX - 5 ->
  Forall wf_machine ms ->
  Forall (fun m => total_queue_length m < num_online_cpus m) ms ->
  spaced_out (interval_ns p) (last_optimization_time p) ms ->
  cpu_performance_threshold (fst (optimize_many p ms))
  = Z.max (cpu_performance_threshold p - 5 * Z.of_nat (List.length ms)) 50.
Proof.
  intros Hi Hl Ht Hwf. revert p Hi Hl Ht.
  induction Hwf as [|m ms Hm _ IH]; intros p Hi Hl Ht Hload Hsp.
  - simpl. lia.
  - apply Forall_cons_iff in Hload as [Hload1 Hload].
    destruct Hsp as [Hclock Hsp].
    assert (Hg : rate_limited p (sched_clock m) = false)
      by (apply rate_limited_beyond; assumption).
    assert (Hst : threshold_steppable p).
    { unfold threshold_steppable, INT_MIN in *. lia. }
    rewrite optimize_many_cons, (optimize_pass_state p m Hm Hst Hg).
    pose proof (num_online_cpus_nonneg m) as Hn.
    assert (Hadj : adjusted (cpu_performance_threshold p)
                     (total_queue_length m) (num_online_cpus m)
                   = Z.max (cpu_performance_threshold p - 5) 50).
    { unfold adjusted.
      destruct (Z.gtb_spec (total_queue_length m) (3 * num_online_cpus m));
        [lia|].
      destruct (Z.ltb_spec (total_queue_length m) (num_online_cpus m));
        [reflexivity | lia]. }
    rewrite Hadj.
    set (p1 := mk_policy (policy_optimization_enabled p)
                 (Z.max (cpu_performance_threshold p - 5) 50)
                 (load_balance_interval p) (sched_clock m)).
    assert (IH1 := IH p1 Hi
                     ltac:(unfold interval_ns in *; simpl; lia)
                     ltac:(unfold INT_MIN, INT_MAX in *; simpl; lia)
                     Hload Hsp).
    rewrite IH1. simpl cpu_performance_threshold.
    rewrite length_cons, Nat2Z.inj_succ. lia.
Qed.

(** From 75, three idle passes 100 ms apart reach 60. *)
Lemma X6_idle_saturates_witness :
  cpu_performance_threshold
    (fst (optimize_many (policy_4cpu 0)
            [ snapshot 100000000 [0; 0; 0; 0];
              snapshot 200000000 [1; 0; 1; 0];
              snapshot 300000000 [0; 0; 0; 3] ])) = 60.
Proof.
  refine (X6_idle_saturates (policy_4cpu 0)
            [ snapshot 100000000 [0; 0; 0; 0];
              snapshot 200000000 [1; 0; 1; 0];
              snapshot 300000000 [0; 0; 0; 3] ] _ _ _ _ _ _).
  - vm_compute. split; discriminate.
  - vm_compute. discriminate.
  - vm_compute. split; discriminate.
  - repeat (constructor; [solve_wf_machine|]). constructor.
  - repeat constructor.
  - vm_compute. repeat split; discriminate.
Defined.

(** ** What a single pass does and does not do *)

Lemma queue_sum_member (m : machine) (l : list Z) (cpu : Z) :
  Forall (fun c => 0 <= nr_running (cpu_rq m c)) l ->
  In cpu l ->
  nr_running (cpu_rq m cpu) <= queue_sum m l.
Proof.
  induction 1 as [|c l Hc Hl IH]; intros Hin; [contradiction|].
  assert (Hq : 0 <= queue_sum m l).
  { clear - Hl. induction Hl; simpl; lia. }
  simpl. destruct Hin as [->|Hin]; [lia|].
  specialize (IH Hin). lia.
Qed.

Lemma wf_machine_queues (m : machine) :
  wf_machine m ->
  Forall (fun c => 0 <= nr_running (cpu_rq m c)) (cpu_online_mask m).
Proof.
  intros (_ & _ & Hall & _).
  eapply Forall_impl; [|exact Hall]. simpl. intros a Ha. lia.
Qed.

Lemma quiet_existsb (m : machine) (bound : Z) (l : list Z) :
  (forall cpu, In cpu l -> (nr_running (cpu_rq m cpu) >? bound) = false) ->
  existsb (fun cpu => nr_running (cpu_rq m cpu) >? bound) l = false.
Proof.
  induction l as [|c l IH]; intros H; [reflexivity|].
  simpl. rewrite (H c (or_introl eq_refl)). simpl.
  apply IH. intros cpu Hin. apply H. right. exact Hin.
Qed.

Lemma quiet_overload_log (m : machine) (bound : Z) (l : list Z) :
  (forall cpu, In cpu l -> (nr_running (cpu_rq m cpu) >? bound) = false) ->
  overload_log m bound l = [].
Proof.
  induction l as [|c l IH]; intros H; [reflexivity|].
  unfold overload_log in *. simpl. rewrite (H c (or_introl eq_refl)). simpl.
  apply IH. intros cpu Hin. apply H. right. exact Hin.
Qed.

(** X7: a pass that lowers the threshold is silent: when fewer tasks
    are queued than processors are online, no processor is flagged,
    nothing is logged and no processor is kicked. *)
Theorem X7_lowering_pass_is_silent (p : policy) (m : machine) :
  wf_machine m ->
  rate_limited p (sched_clock m) = false ->
  total_queue_length m < num_online_cpus m ->
  snd (optimize_cpu_performance p m) = [].
Proof.
  intros Hwf Hg Hlow.
  rewrite (optimize_pass p m Hwf Hg). cbn [snd].
  pose proof (wf_machine_queues m Hwf) as Hq.
  pose proof (num_online_cpus_nonneg m) as Hn.
  assert (Hnone : forall cpu, In cpu (cpu_online_mask m) ->
                    (nr_running (cpu_rq m cpu) >? 2 * num_online_cpus m)
                    = false).
  { intros cpu Hin. pose proof (queue_sum_member m _ cpu Hq Hin) as Hle.
    change (queue_sum m (cpu_online_mask m)) with (total_queue_length m)
      in Hle.
    destruct (Z.gtb_spec (nr_running (cpu_rq m cpu))
                (2 * num_online_cpus m)); [lia | reflexivity]. }
  assert (Hex : existsb (overloaded m) (cpu_online_mask m) = false).
  { apply quiet_existsb. exact Hnone. }
  assert (Hlog : overload_log m (2 * num_online_cpus m) (cpu_online_mask m)
                 = []).
  { apply quiet_overload_log. exact Hnone. }
  rewrite Hex, Hlog. reflexivity.
Qed.

(** Four processors with three tasks queued. *)
Lemma X7_lowering_pass_is_silent_witness :
  snd (optimize_cpu_performance (policy_4cpu 0)
         (snapshot 200000000 [3; 0; 0; 0])) = [].
Proof.
  refine (X7_lowering_pass_is_silent (policy_4cpu 0)
            (snapshot 200000000 [3; 0; 0; 0]) _ _ _).
  - solve_wf_machine.
  - reflexivity.
  - reflexivity.
Defined.

Lemma filter_out_member (l : list Z) (a : Z) :
  NoDup l -> In a l ->
  S (List.length (filter (fun c => negb (c =? a)) l)) = List.length l.
Proof.
  induction 1 as [|c l Hc Hnd IH]; intros Hin; [contradiction|].
  simpl. destruct (Z.eqb_spec c a) as [->|Hne]; simpl.
  - f_equal.
    clear IH Hin Hnd. induction l as [|d l IH]; [reflexivity|].
    simpl. destruct (Z.eqb_spec d a) as [->|Hd].
    + exfalso. apply Hc. left. reflexivity.
    + simpl. f_equal. apply IH. intros H. apply Hc. right. exact H.
  - f_equal. apply IH. destruct Hin as [Heq|Hin]; [contradiction|exact Hin].
Qed.

(** X8: when a pass fans out and the executing processor is online
    (as it is), exactly [n - 1] processors are kicked, and the
    executing one is not among them. *)
Theorem X8_fanout_size (p : policy) (m : machine) :
  wf_machine m ->
  rate_limited p (sched_clock m) = false ->
  policy_optimization_enabled p = true ->
  existsb (overloaded m) (cpu_online_mask m) = true ->
  In (smp_processor_id m) (cpu_online_mask m) ->
  Z.of_nat (List.length (kicks (snd (optimize_cpu_performance p m))))
  = num_online_cpus m - 1 /\
  ~ In (smp_processor_id m) (kicks (snd (optimize_cpu_performance p m))).
Proof.
  intros Hwf Hg Hen Hov Hself.
  rewrite (optimize_pass p m Hwf Hg). cbn [snd].
  rewrite kicks_app, kicks_overload_log, Hov, Hen. simpl.
  rewrite kicks_kick_all. split.
  - pose proof (filter_out_member _ _ (proj1 Hwf) Hself) as Hlen.
    unfold num_online_cpus. lia.
  - intros Hin. apply filter_In in Hin as [_ Hne].
    rewrite Z.eqb_refl in Hne. discriminate.
Qed.

(** Four overloaded processors, processor 0 executing: three kicks. *)
Lemma X8_fanout_size_witness :
  Z.of_nat (List.length
              (kicks (snd (optimize_cpu_performance (policy_4cpu 0)
                             (snapshot 200000000 [9; 9; 9; 9])))))
  = 3.
Proof.
  refine (proj1 (X8_fanout_size (policy_4cpu 0)
                   (snapshot 200000000 [9; 9; 9; 9]) _ _ _ _ _)).
  - solve_wf_machine.
  - reflexivity.
  - reflexivity.
  - reflexivity.
  - simpl. tauto.
Defined.

(** ** Edges of the rate limit *)

(** X9: an interval of zero switches the rate limit off: whatever the
    clock and the time stamp, the invocation is a pass and records
    the clock. *)
Theorem X9_zero_interval_never_limits (p : policy) (m : machine) :
  load_balance_interval p = 0 ->
  rate_limited p (sched_clock m) = false /\
  last_optimization_time (fst (optimize_cpu_performance p m))
  = sched_clock m.
Proof.
  intros Hz.
  assert (Hg : rate_limited p (sched_clock m) = false).
  { unfold rate_limited. rewrite Hz.
    change (u64 (u64 0 * 1000000)) with 0.
    apply Z.ltb_ge. apply u64_range. }
  split; [exact Hg | apply optimize_last_time, Hg].
Qed.

(** The interval set to zero through its parameter: an invocation at
    the very time of the last pass is a pass. *)
Lemma X9_zero_interval_never_limits_witness :
  rate_limited
    (module_param_store (policy_4cpu 100000000)
       Param_load_balance_interval 0) 100000000 = false.
Proof.
  exact (proj1 (X9_zero_interval_never_limits
                  (module_param_store (policy_4cpu 100000000)
                     Param_load_balance_interval 0)
                  (snapshot 100000000 []) eq_refl)).
Defined.

(** X10: the elapsed time is computed in unsigned arithmetic, so a
    clock reading earlier than the time stamp (by up to [2 ^ 63])
    wraps to a huge elapsed time: the invocation is a pass and the
    time stamp moves back to that reading. *)
Theorem X10_clock_behind_timestamp (p : policy) (m : machine) :
  0 <= load_balance_interval p <= INT_MAX ->
  0 <= sched_clock m < last_optimization_time p ->
  last_optimization_time p < U64_MOD ->
  last_optimization_time p - sched_clock m <= 2 ^ 63 ->
  rate_limited p (sched_clock m) = false /\
  last_optimization_time (fst (optimize_cpu_performance p m))
  = sched_clock m.
Proof.
  intros Hi Hc Hl Hd.
  assert (Hg : rate_limited p (sched_clock m) = false).
  { unfold rate_limited, INT_MAX, U64_MOD in *.
    rewrite (u64_small (load_balance_interval p))
      by (unfold U64_MOD; lia).
    rewrite (u64_small (load_balance_interval p * 1000000))
      by (unfold U64_MOD; lia).
    unfold u64, U64_MOD.
    replace (sched_clock m - last_optimization_time p)
      with ((2 ^ 64 + sched_clock m - last_optimization_time p)
            + (-1) * 2 ^ 64) by lia.
    rewrite Z_mod_plus_full, Z.mod_small by lia.
    apply Z.ltb_ge. lia. }
  split; [exact Hg | apply optimize_last_time, Hg].
Qed.

(** Time stamp at 100 ms, clock read as 99 ms. *)
Lemma X10_clock_behind_timestamp_witness :
  last_optimization_time
    (fst (optimize_cpu_performance (policy_4cpu 100000000)
            (snapshot 99000000 [1; 1; 1; 1]))) = 99000000.
Proof.
  refine (proj2 (X10_clock_behind_timestamp (policy_4cpu 100000000)
                   (snapshot 99000000 [1; 1; 1; 1]) _ _ _ _)).
  - vm_compute. split; discriminate.
  - vm_compute. split; [discriminate | reflexivity].
  - reflexivity.
  - vm_compute. discriminate.
Defined.

(** X11: however often the optimizer is invoked, it never changes the
    enable flag or the interval, and the time stamp it leaves is the
    one it found or the clock of one of the invocations. *)
Theorem X11_optimizer_frame (p : policy) (ms : list machine) :
  policy_optimization_enabled (fst (optimize_many p ms))
  = policy_optimization_enabled p /\
  load_balance_interval (fst (optimize_many p ms))
  = load_balance_interval p /\
  (last_optimization_time (fst (optimize_many p ms))
   = last_optimization_time p \/
   In (last_optimization_time (fst (optimize_many p ms)))
      (map sched_clock ms)).
Proof.
  revert p. induction ms as [|m ms IH]; intros p.
  - simpl. auto.
  - rewrite optimize_many_cons.
    destruct (IH (fst (optimize_cpu_performance p m))) as (He & Hi & Hl).
    destruct (optimize_frame p m) as [He1 Hi1].
    split; [congruence|]. split; [congruence|].
    destruct Hl as [Hl|Hl]; [|right; right; exact Hl].
    rewrite Hl.
    destruct (rate_limited p (sched_clock m)) eqn:Hg.
    + left. rewrite (optimize_limited p m Hg). reflexivity.
    + right. left. symmetry. apply optimize_last_time, Hg.
Qed.

(** ** Writing and reading the tunables *)

Lemma copy_from_user_all (s : list ascii) :
  copy_from_user s (Z.of_nat (List.length s)) = Some s.
Proof.
  unfold copy_from_user. rewrite Z.ltb_irrefl, Nat2Z.id, firstn_all.
  reflexivity.
Qed.

(** A write of a text that [kstrtoll] reads as an [int], all of it
    handed over and at most four bytes long. *)
Lemma proc_write_parsed (ts : tunables) (e : proc_entry) (cf : cpufreq)
    (s : list ascii) (v : Z) :
  parses_input (pe_ops e) = true ->
  Z.of_nat (List.length s) <= 4 ->
  kstrtoll (parsed_text s) 0 = KOk v ->
  (v =? s32 v) = true ->
  proc_write ts e cf s (Z.of_nat (List.length s))
  = (Some (Z.of_nat (List.length s)), store ts (pe_data e) v, []).
Proof.
  intros Hp Hlen Hk Hfit.
  destruct (proc_write_parsing ts e cf s (Z.of_nat (List.length s)) Hp
              ltac:(lia))
    as [(bytes & w & _ & Hcp & Hkw & _ & Hw)
       | (log & [H5 | [Hcp | (bytes & rv & Hcp & Hrv & Hkr)]] & _)].
  - rewrite copy_from_user_all in Hcp. inversion Hcp; subst bytes.
    rewrite Hk in Hkw. inversion Hkw; subst w. exact Hw.
  - lia.
  - rewrite copy_from_user_all in Hcp. discriminate.
  - rewrite copy_from_user_all in Hcp. inversion Hcp; subst bytes.
    unfold kstrtoint in Hkr. rewrite Hk, Hfit in Hkr. simpl in Hkr. lia.
Qed.

Lemma proc_write_decimal (ts : tunables) (e : proc_entry) (cf : cpufreq)
    (n : Z) :
  parses_input (pe_ops e) = true ->
  -999 <= n <= 9999 ->
  proc_write ts e cf (decimal_text n)
    (Z.of_nat (List.length (decimal_text n)))
  = (Some (Z.of_nat (List.length (decimal_text n))),
     store ts (pe_data e) n, []).
Proof.
  intros Hp Hn. pose proof (stores_decimal_ok n Hn) as Hok.
  unfold stores_decimal in Hok.
  apply andb_prop in Hok as [Hok Hk]. apply andb_prop in Hok as [Hlen _].
  apply Z.leb_le in Hlen.
  destruct (kstrtoll (parsed_text (decimal_text n)) 0) as [v|] eqn:Ek;
    [|discriminate].
  apply andb_prop in Hk as [Hv Hfit]. apply Z.eqb_eq in Hv. subst v.
  apply proc_write_parsed; assumption.
Qed.

(** X12: write and read back: after the decimal text of a number from
    -999 to 9999 is written to an entry whose handler parses, a read
    of that entry prints that number. *)
Theorem X12_write_read_round_trip
    (ts : tunables) (e : proc_entry) (cf : cpufreq) (n : Z) :
  parses_input (pe_ops e) = true ->
  -999 <= n <= 9999 ->
  read_entry
    (write_store ts e cf (decimal_text n)
       (Z.of_nat (List.length (decimal_text n)))) e
  = [Seq_printf "%d\n" [n]].
Proof.
  intros Hp Hn. unfold read_entry, write_store, hmbird_common_show.
  rewrite (proc_write_decimal ts e cf n Hp Hn). simpl.
  rewrite store_eq. reflexivity.
Qed.

(** [-7] written to [cpu7_tl] and read back. *)
Lemma X12_write_read_round_trip_witness :
  read_entry (write_store tunables_static entry_cpu7_tl cpufreq_4cpu
                (decimal_text (-7)) 2)
             entry_cpu7_tl
  = [Seq_printf "%d\n" [-7]].
Proof.
  exact (X12_write_read_round_trip tunables_static entry_cpu7_tl cpufreq_4cpu
           (-7) eq_refl ltac:(lia)).
Defined.

Lemma proc_write_store (ts : tunables) (e : proc_entry) cf buf count :
  exists v, write_store ts e cf buf count = store ts (pe_data e) v.
Proof.
  unfold write_store, proc_write.
  destruct (proc_ops_write (pe_ops e) cf buf count (ts (pe_data e)))
    as [[ret v] log].
  exists v. reflexivity.
Qed.

Lemma entries_cells_distinct : NoDup (map pe_data hmbird_proc_entries).
Proof.
  simpl. repeat (constructor; [simpl; intuition discriminate|]).
  constructor.
Qed.

Lemma NoDup_map_distinct {A B : Type} (f : A -> B) (l : list A) (a b : A) :
  NoDup (map f l) -> In a l -> In b l -> a <> b -> f a <> f b.
Proof.
  induction l as [|c l IH]; intros Hnd Ha Hb Hne; [contradiction|].
  simpl in Hnd. apply NoDup_cons_iff in Hnd as [Hc Hnd].
  destruct Ha as [->|Ha]; destruct Hb as [->|Hb].
  - contradiction.
  - intros Heq. apply Hc. rewrite Heq. apply in_map. exact Hb.
  - intros Heq. apply Hc. rewrite <- Heq. apply in_map. exact Ha.
  - apply IH; assumption.
Qed.

(** X13: the entries of [hmbird_proc_init] do not interfere: whatever
    is written to one entry, with whatever outcome, a read of any
    other entry prints what it printed before. *)
Theorem X13_entries_do_not_interfere
    (ts : tunables) (e1 e2 : proc_entry) (cf : cpufreq)
    (buf : list ascii) (count : Z) :
  In e1 hmbird_proc_entries ->
  In e2 hmbird_proc_entries ->
  e1 <> e2 ->
  read_entry (write_store ts e1 cf buf count) e2 = read_entry ts e2.
Proof.
  intros H1 H2 Hne.
  pose proof (NoDup_map_distinct pe_data _ e1 e2
                entries_cells_distinct H1 H2 Hne) as Hd.
  destruct (proc_write_store ts e1 cf buf count) as [v Hv].
  unfold read_entry, hmbird_common_show. rewrite Hv. simpl.
  rewrite store_neq by exact Hd. reflexivity.
Qed.

(** A write to [cpu7_tl] seen from [save_gov]. *)
Lemma X13_entries_do_not_interfere_witness :
  read_entry (write_store tunables_static entry_cpu7_tl cpufreq_4cpu
                (bytes_of "42") 2)
             entry_save_gov
  = read_entry tunables_static entry_save_gov.
Proof.
  refine (X13_entries_do_not_interfere tunables_static entry_cpu7_tl
            entry_save_gov cpufreq_4cpu (bytes_of "42") 2 _ _ _).
  - simpl. tauto.
  - simpl. tauto.
  - discriminate.
Defined.

Lemma three_byte_numbers_in (n : Z) :
  -99 <= n <= 999 -> In n three_byte_numbers.
Proof.
  intros H. unfold three_byte_numbers. apply in_map_iff.
  exists (Z.to_nat (n + 99)). split; [lia|].
  apply in_seq. lia.
Qed.

Lemma stores_decimal_line_all :
  forallb stores_decimal_line three_byte_numbers = true.
Proof. vm_compute. reflexivity. Qed.

(** X14: a line feed after the number is accepted: the decimal text
    of a number from -99 to 999 followed by a line feed (what a shell
    [echo] sends) is stored as that number, and the write returns the
    full byte count. *)
Theorem X14_trailing_line_feed
    (ts : tunables) (e : proc_entry) (cf : cpufreq) (n : Z) :
  parses_input (pe_ops e) = true ->
  -99 <= n <= 999 ->
  write_result ts e cf (decimal_text n ++ [LF])
    (Z.of_nat (List.length (decimal_text n ++ [LF])))
  = Some (Z.of_nat (List.length (decimal_text n ++ [LF]))) /\
  write_store ts e cf (decimal_text n ++ [LF])
    (Z.of_nat (List.length (decimal_text n ++ [LF]))) (pe_data e) = n.
Proof.
  intros Hp Hn. pose proof stores_decimal_line_all as Hall.
  rewrite forallb_forall in Hall.
  specialize (Hall n (three_byte_numbers_in n Hn)).
  unfold stores_decimal_line in Hall.
  apply andb_prop in Hall as [Hlen Hk]. apply Z.leb_le in Hlen.
  destruct (kstrtoll (parsed_text (decimal_text n ++ [LF])) 0) as [v|] eqn:Ek;
    [|discriminate].
  apply andb_prop in Hk as [Hv Hfit]. apply Z.eqb_eq in Hv. subst v.
  unfold write_result, write_store.
  rewrite (proc_write_parsed ts e cf _ n Hp Hlen Ek Hfit). simpl.
  split; [reflexivity | apply store_eq].
Qed.

(** [echo 125] to [cpu7_tl]: four bytes, stored as 125. *)
Lemma X14_trailing_line_feed_witness :
  write_store tunables_static entry_cpu7_tl cpufreq_4cpu
              (decimal_text 125 ++ [LF]) 4 cpu7_tl = 125.
Proof.
  exact (proj2 (X14_trailing_line_feed tunables_static entry_cpu7_tl
                  cpufreq_4cpu 125 eq_refl ltac:(lia))).
Defined.

(** X15: an empty write is refused: with a byte count of zero the
    handlers that parse answer [-EFAULT], whatever the buffer, and
    the store is left as it was. *)
Theorem X15_empty_write_refused
    (ts : tunables) (e : proc_entry) (cf : cpufreq) (buf : list ascii) :
  parses_input (pe_ops e) = true ->
  write_result ts e cf buf 0 = Some (- EFAULT) /\
  forall t, write_store ts e cf buf 0 t = ts t.
Proof.
  intros Hp. unfold write_result, write_store, proc_write.
  rewrite (parsing_write_unfold _ _ _ _ _ Hp).
  unfold set_proc_buf_val, copy_from_user.
  change (0 >=? 5) with false. cbv iota.
  destruct (Z.ltb_spec (Z.of_nat (List.length buf)) 0) as [Hneg|_]; [lia|].
  simpl. split; [reflexivity|]. intros t. apply store_same.
Qed.

Lemma X15_empty_write_refused_witness :
  write_result tunables_static entry_cpu7_tl cpufreq_4cpu (bytes_of "42") 0
  = Some (- EFAULT).
Proof.
  exact (proj1 (X15_empty_write_refused tunables_static entry_cpu7_tl
                  cpufreq_4cpu (bytes_of "42") eq_refl)).
Defined.

(** ** The range of what a write can store *)

Lemma land_high_nibble (res : Z) :
  0 <= res < 2 ^ 60 ->
  Z.land res (u64 (Z.shiftl ULLONG_MAX 60)) = 0.
Proof.
  intros Hr.
  replace (u64 (Z.shiftl ULLONG_MAX 60)) with (Z.shiftl 15 60)
    by (vm_compute; reflexivity).
  apply Z.bits_inj'. intros n Hn.
  rewrite Z.land_spec, Z.bits_0.
  destruct (Z.lt_ge_cases n 60) as [Hlt|Hge].
  - rewrite Z.shiftl_spec_low by exact Hlt. apply andb_false_r.
  - destruct (Z.eq_dec res 0) as [->|Hnz].
    + rewrite Z.bits_0. reflexivity.
    + rewrite Z.bits_above_log2; [reflexivity|lia|].
      assert (Z.log2 res < 60) by (apply Z.log2_lt_pow2; lia). lia.
Qed.

Lemma pow_pos_ge_1 (b k : Z) : 1 <= b -> 0 <= k -> 1 <= b ^ k.
Proof.
  intros Hb Hk. replace 1 with (1 ^ k) by apply Z.pow_1_l, Hk.
  apply Z.pow_le_mono_l. lia.
Qed.

Lemma _parse_integer_cons (c : ascii) (s : list ascii)
    (base res rv : Z) (ovf : bool) :
  _parse_integer (c :: s) base res rv ovf =
  match (if (48 <=? code c) && (code c <=? 57) then Some (code c - 48)
         else if (97 <=? _tolower (code c)) && (_tolower (code c) <=? 102)
              then Some (_tolower (code c) - 97 + 10)
              else None) with
  | None => (res, rv, ovf, c :: s)
  | Some val =>
      if val >=? base then (res, rv, ovf, c :: s)
      else
        _parse_integer s base (u64 (res * base + val)) (rv + 1)
          (if negb (Z.land res (u64 (Z.shiftl ULLONG_MAX 60)) =? 0)
           then (res >? (ULLONG_MAX - val) / base) || ovf
           else ovf)
  end.
Proof. reflexivity. Qed.

(** Digits read from a small accumulator stay below the matching
    power of the base, and the overflow flag is left alone. *)
Lemma _parse_integer_bound (s : list ascii) (base : Z) :
  2 <= base <= 16 ->
  forall res rv ovf,
    0 <= res ->
    (res + 1) * base ^ Z.of_nat (List.length s) <= 2 ^ 60 ->
    snd (fst (_parse_integer s base res rv ovf)) = ovf /\
    0 <= fst (fst (fst (_parse_integer s base res rv ovf))) /\
    fst (fst (fst (_parse_integer s base res rv ovf))) + 1
    <= (res + 1) * base ^ Z.of_nat (List.length s).
Proof.
  intros Hb. induction s as [|c s IH]; intros res rv ovf Hres Hsmall.
  - simpl. split; [reflexivity|]. lia.
  - assert (Hpow : 1 <= base ^ Z.of_nat (List.length s))
      by (apply pow_pos_ge_1; lia).
    assert (Hcons : base ^ Z.of_nat (List.length (c :: s))
                    = base * base ^ Z.of_nat (List.length s)).
    { rewrite length_cons, Nat2Z.inj_succ, Z.pow_succ_r by lia.
      reflexivity. }
    rewrite Hcons in *.
    assert (Hstop : snd (fst (res, rv, ovf, c :: s)) = ovf /\
                    0 <= fst (fst (fst (res, rv, ovf, c :: s))) /\
                    fst (fst (fst (res, rv, ovf, c :: s))) + 1
                    <= (res + 1) * (base * base ^ Z.of_nat (List.length s))).
    { simpl. split; [reflexivity|]. split; [lia|nia]. }
    assert (Hgo : forall val, 0 <= val < base ->
              snd (fst (_parse_integer s base (u64 (res * base + val))
                          (rv + 1)
                          (if negb (Z.land res (u64 (Z.shiftl ULLONG_MAX 60))
                                    =? 0)
                           then (res >? (ULLONG_MAX - val) / base) || ovf
                           else ovf))) = ovf /\
              0 <= fst (fst (fst (_parse_integer s base
                          (u64 (res * base + val)) (rv + 1)
                          (if negb (Z.land res (u64 (Z.shiftl ULLONG_MAX 60))
                                    =? 0)
                           then (res >? (ULLONG_MAX - val) / base) || ovf
                           else ovf)))) /\
              fst (fst (fst (_parse_integer s base
                          (u64 (res * base + val)) (rv + 1)
                          (if negb (Z.land res (u64 (Z.shiftl ULLONG_MAX 60))
                                    =? 0)
                           then (res >? (ULLONG_MAX - val) / base) || ovf
                           else ovf)))) + 1
              <= (res + 1) * (base * base ^ Z.of_nat (List.length s))).
    { intros val Hval.
      assert (Hres60 : 0 <= res < 2 ^ 60) by nia.
      rewrite (land_high_nibble res Hres60). simpl negb. cbv iota.
      assert (Hnew : 0 <= res * base + val < 2 ^ 60) by nia.
      rewrite (u64_small (res * base + val)) by (unfold U64_MOD; lia).
      destruct (IH (res * base + val) (rv + 1) ovf ltac:(lia) ltac:(nia))
        as (Ho & H0 & Hle).
      split; [exact Ho|]. split; [exact H0|]. nia. }
    rewrite _parse_integer_cons.
    destruct ((48 <=? code c) && (code c <=? 57)) eqn:Edec.
    + apply andb_prop in Edec as [E1 E2].
      apply Z.leb_le in E1. apply Z.leb_le in E2.
      destruct (Z.geb_spec (code c - 48) base) as [Hge|Hlt];
        [exact Hstop|]. apply Hgo. lia.
    + destruct ((97 <=? _tolower (code c)) && (_tolower (code c) <=? 102))
        eqn:Ehex; [|exact Hstop].
      apply andb_prop in Ehex as [E1 E2].
      apply Z.leb_le in E1. apply Z.leb_le in E2.
      destruct (Z.geb_spec (_tolower (code c) - 97 + 10) base) as [Hge|Hlt];
        [exact Hstop|]. apply Hgo. lia.
Qed.

(** The radix chosen for base 0: octal or decimal on the string as it
    is, or hexadecimal on the string past its two-byte prefix. *)
Lemma fixup_radix_auto (s : list ascii) :
  ((snd (_parse_integer_fixup_radix s 0) = 8 \/
    snd (_parse_integer_fixup_radix s 0) = 10) /\
   fst (_parse_integer_fixup_radix s 0) = s) \/
  (snd (_parse_integer_fixup_radix s 0) = 16 /\
   exists c0 c1, s = c0 :: c1 :: fst (_parse_integer_fixup_radix s 0)).
Proof.
  unfold _parse_integer_fixup_radix. simpl (0 =? 0). cbv iota.
  destruct (char_at s 0 =? 48) eqn:E0.
  - destruct ((_tolower (char_at s 1) =? 120) && isxdigit (char_at s 2))
      eqn:Ex.
    + apply andb_prop in Ex as [Ex _].
      simpl (16 =? 16). rewrite Ex. simpl.
      right. split; [reflexivity|].
      destruct s as [|c0 [|c1 r]].
      * discriminate E0.
      * discriminate Ex.
      * exists c0, c1. reflexivity.
    + left. simpl. auto.
  - left. simpl. auto.
Qed.

Lemma pow10_le (k : Z) : 0 <= k <= 4 -> 10 ^ k <= 10000.
Proof.
  intros Hk. change 10000 with (10 ^ 4).
  apply Z.pow_le_mono_r; lia.
Qed.

(** With base 0 a string of at most four bytes is read as a number
    below ten to the power of its length. *)
Lemma _kstrtoull_bound (s : list ascii) (v : Z) :
  (List.length s <= 4)%nat ->
  _kstrtoull s 0 = KOk v ->
  0 <= v < 10 ^ Z.of_nat (List.length s).
Proof.
  intros Hlen. unfold _kstrtoull.
  pose proof (fixup_radix_auto s) as Hfix.
  destruct (_parse_integer_fixup_radix s 0) as [s' base]. simpl in Hfix.
  assert (Hbase : 2 <= base <= 16) by (destruct Hfix as [[[?|?] _]|[? _]]; lia).
  assert (Hlen' : (List.length s' <= 4)%nat).
  { destruct Hfix as [[_ ->]|[_ (c0 & c1 & ->)]]; simpl in *; lia. }
  assert (Hroom : (0 + 1) * base ^ Z.of_nat (List.length s') <= 2 ^ 60).
  { assert (base ^ Z.of_nat (List.length s') <= 16 ^ 4).
    { transitivity (16 ^ Z.of_nat (List.length s')).
      - apply Z.pow_le_mono_l. lia.
      - apply Z.pow_le_mono_r; lia. }
    change (16 ^ 4) with 65536 in *. change (2 ^ 60) with 1152921504606846976.
    lia. }
  pose proof (_parse_integer_bound s' base Hbase 0 0 false ltac:(lia) Hroom)
    as (Hovf & H0 & Hle).
  destruct (_parse_integer s' base 0 0 false) as [[[res rv] ovf] rest].
  cbn [fst snd] in Hovf, H0, Hle. subst ovf.
  destruct (rv =? 0); [discriminate|].
  destruct (if char_at rest 0 =? 10 then tl rest else rest);
    [|discriminate].
  intros H. inversion H; subst v. split; [exact H0|].
  assert (Hcmp : base ^ Z.of_nat (List.length s')
                 <= 10 ^ Z.of_nat (List.length s)).
  { destruct Hfix as [[[->| ->] ->]|[-> (c0 & c1 & ->)]].
    - apply Z.pow_le_mono_l. lia.
    - lia.
    - simpl in Hlen. clear - Hlen.
      destruct s' as [|a [|b [|c r]]]; simpl in Hlen; try lia;
        vm_compute; discriminate. }
  lia.
Qed.

Lemma kstrtoll_bound (s : list ascii) (v : Z) :
  (List.length s <= 4)%nat ->
  kstrtoll s 0 = KOk v ->
  -999 <= v <= 9999.
Proof.
  intros Hlen. unfold kstrtoll, kstrtoull.
  destruct (char_at s 0 =? 45) eqn:Eminus.
  - destruct s as [|c s1]; [discriminate Eminus|]. simpl tl. simpl in Hlen.
    destruct (_kstrtoull s1 0) as [tmp|rv] eqn:Ek; [|discriminate].
    pose proof (_kstrtoull_bound s1 tmp ltac:(lia) Ek) as Hb.
    assert (Hp : 10 ^ Z.of_nat (List.length s1) <= 10 ^ 3)
      by (apply Z.pow_le_mono_r; lia).
    change (10 ^ 3) with 1000 in Hp.
    rewrite s64_small by (change (2 ^ 63) with 9223372036854775808; lia).
    destruct (Z.gtb_spec (- tmp) 0); [discriminate|].
    intros Hv. inversion Hv. lia.
  - set (s2 := if char_at s 0 =? 43 then tl s else s).
    assert (Hlen2 : (List.length s2 <= 4)%nat).
    { unfold s2. destruct (char_at s 0 =? 43); [|exact Hlen].
      destruct s; simpl in *; lia. }
    destruct (_kstrtoull s2 0) as [tmp|rv] eqn:Ek; [|discriminate].
    pose proof (_kstrtoull_bound s2 tmp Hlen2 Ek) as Hb.
    pose proof (pow10_le (Z.of_nat (List.length s2)) ltac:(lia)) as Hp.
    rewrite s64_small by (change (2 ^ 63) with 9223372036854775808; lia).
    destruct (Z.ltb_spec tmp 0); [discriminate|].
    intros Hv. inversion Hv. lia.
Qed.

Lemma skip_spaces_length (s : list ascii) :
  (List.length (skip_spaces s) <= List.length s)%nat.
Proof.
  induction s as [|c s IH]; [simpl; lia|].
  simpl. destruct (isspace c); simpl; lia.
Qed.

Lemma cstring_padded_length (bytes : list ascii) (k : nat) :
  (List.length (cstring (bytes ++ repeat NUL k)) <= List.length bytes)%nat.
Proof.
  induction bytes as [|c bytes IH].
  - simpl. destruct k; simpl; lia.
  - simpl. destruct (code c =? 0); simpl; lia.
Qed.

Lemma parsed_text_length (bytes : list ascii) :
  (List.length (parsed_text bytes) <= List.length bytes)%nat.
Proof.
  unfold parsed_text, strstrip, strim.
  pose proof (cstring_padded_length bytes (5 - List.length bytes)) as Hc.
  set (t := cstring (bytes ++ repeat NUL (5 - List.length bytes))) in *.
  pose proof (skip_spaces_length (rev (skip_spaces (rev t)))) as H1.
  pose proof (skip_spaces_length (rev t)) as H2.
  rewrite length_rev in H1. rewrite length_rev in H2. lia.
Qed.

(** X16: whatever bytes are written, a write that succeeds through a
    parsing handler stores a number from -999 to 9999: the four-byte
    buffer leaves room for nothing else, in any base. *)
Theorem X16_stored_value_range
    (ts : tunables) (e : proc_entry) (cf : cpufreq)
    (buf : list ascii) (count ret : Z) :
  parses_input (pe_ops e) = true ->
  0 <= count ->
  write_result ts e cf buf count = Some ret ->
  0 <= ret ->
  -999 <= write_store ts e cf buf count (pe_data e) <= 9999.
Proof.
  intros Hp Hc Hret Hok. unfold write_result, write_store in *.
  destruct (proc_write_parsing ts e cf buf count Hp Hc)
    as [(bytes & v & H5 & Hcp & Hk & _ & Hw) | (log & _ & Hw)];
    rewrite Hw in *; simpl in *.
  - rewrite store_eq. apply (kstrtoll_bound (parsed_text bytes)); [|exact Hk].
    pose proof (parsed_text_length bytes) as Hl.
    unfold copy_from_user in Hcp.
    destruct (Z.of_nat (List.length buf) <? count); [discriminate|].
    inversion Hcp; subst bytes.
    pose proof (firstn_le_length (Z.to_nat count) buf). lia.
  - inversion Hret. unfold EFAULT in *. lia.
Qed.

(** The largest hexadecimal text that fits: [0xff] is stored as
    255. *)
Lemma X16_stored_value_range_witness :
  -999 <= write_store tunables_static entry_cpu7_tl cpufreq_4cpu
            (bytes_of "0xff") 4 cpu7_tl <= 9999.
Proof.
  refine (X16_stored_value_range tunables_static entry_cpu7_tl cpufreq_4cpu
            (bytes_of "0xff") 4 4 eq_refl _ _ _).
  - lia.
  - reflexivity.
  - lia.
Defined.

(** ** The buffer as a C string *)

Lemma cstring_until_nul (s r : list ascii) :
  Forall (fun c => code c <> 0) s ->
  cstring (s ++ NUL :: r) = s.
Proof.
  induction 1 as [|c s Hc _ IH]; [reflexivity|].
  simpl. destruct (Z.eqb_spec (code c) 0); [contradiction|].
  rewrite IH. reflexivity.
Qed.

Lemma cstring_padded (s : list ascii) (k : nat) :
  Forall (fun c => code c <> 0) s ->
  cstring (s ++ repeat NUL k) = s.
Proof.
  induction 1 as [|c s Hc _ IH].
  - destruct k; reflexivity.
  - simpl. destruct (Z.eqb_spec (code c) 0); [contradiction|].
    rewrite IH. reflexivity.
Qed.

Lemma set_proc_buf_val_whole (s : list ascii) (val : Z) :
  Z.of_nat (List.length s) <= 4 ->
  set_proc_buf_val s (Z.of_nat (List.length s)) val =
  (let '(err, v) := kstrtoint (parsed_text s) 0 val in
   if err <? 0
   then (- EFAULT, v,
         [Printk KERN_ERR "hmbird_sched: Failed to exec kstrtoint\n" []])
   else (0, v, [])).
Proof.
  intros Hlen. unfold set_proc_buf_val.
  destruct (Z.geb_spec (Z.of_nat (List.length s)) 5); [lia|].
  rewrite copy_from_user_all. reflexivity.
Qed.

(** X17: the buffer is read as a C string: bytes written after a NUL
    byte are ignored, so a write of [s], a NUL and anything after it
    leaves the same store as a write of [s] alone. *)
Theorem X17_bytes_after_nul_ignored
    (ts : tunables) (e : proc_entry) (cf : cpufreq) (s junk : list ascii) :
  Forall (fun c => code c <> 0) s ->
  Z.of_nat (List.length (s ++ NUL :: junk)) <= 4 ->
  forall t,
    write_store ts e cf (s ++ NUL :: junk)
      (Z.of_nat (List.length (s ++ NUL :: junk))) t
    = write_store ts e cf s (Z.of_nat (List.length s)) t.
Proof.
  intros Hs Hlen t.
  assert (Hlen' : Z.of_nat (List.length s) <= 4).
  { rewrite length_app in Hlen. lia. }
  assert (Htext : parsed_text (s ++ NUL :: junk) = parsed_text s).
  { unfold parsed_text. rewrite <- app_assoc, <- app_comm_cons.
    rewrite (cstring_until_nul s _ Hs), (cstring_padded s _ Hs).
    reflexivity. }
  unfold write_store, proc_write.
  destruct (parses_input (pe_ops e)) eqn:Hp.
  - rewrite !(parsing_write_unfold _ _ _ _ _ Hp).
    rewrite (set_proc_buf_val_whole _ _ Hlen),
            (set_proc_buf_val_whole _ _ Hlen'), Htext.
    destruct (kstrtoint (parsed_text s) 0 (ts (pe_data e))) as [err v].
    destruct (err <? 0); reflexivity.
  - destruct (pe_ops e); try discriminate. simpl proc_ops_write.
    unfold save_gov_str.
    destruct (save_gov_walk cf (cpu_present_mask cf)) as [completed log].
    reflexivity.
Qed.

(** [7], a NUL and [9] written to [cpu7_tl]: stored as 7, as [7]
    alone is. *)
Lemma X17_bytes_after_nul_ignored_witness :
  write_store tunables_static entry_cpu7_tl cpufreq_4cpu
              (bytes_of "7" ++ NUL :: bytes_of "9") 3 cpu7_tl
  = write_store tunables_static entry_cpu7_tl cpufreq_4cpu
                (bytes_of "7") 1 cpu7_tl.
Proof.
  refine (X17_bytes_after_nul_ignored tunables_static entry_cpu7_tl
            cpufreq_4cpu (bytes_of "7") (bytes_of "9") _ _ cpu7_tl).
  - repeat constructor. vm_compute. discriminate.
  - vm_compute. discriminate.
Defined.

(** ** The shape of the report *)

Lemma indices_length (n : nat) : List.length (indices n) = n.
Proof. unfold indices. rewrite length_map, length_seq. reflexivity. Qed.

Lemma stats_output_length (ts : tunables) (m : machine) (a b c d e : Z) :
  List.length (stats_output ts m a b c d e)
  = (63 + List.length (filter (fun cpu => (cpu <? 8)%Z) (cpu_online_mask m)))%nat.
Proof.
  unfold stats_output.
  rewrite !length_app.
  unfold gdsq_rows, pcp_timeout_rows, pcp_ldsq_rows, pcp_enql_rows.
  rewrite !length_map, !indices_length, cpu_load_rows_count.
  cbn [List.length]. lia.
Qed.

(** X18: the report has a fixed frame of 63 lines plus one line for
    each online processor numbered below 8: between 63 and 71 lines,
    however many processors are online. *)
Theorem X18_report_length (ts : tunables) (m : machine) :
  wf_machine m ->
  exists items,
    hmbird_stats_proc_show ts m = Some (0, items) /\
    List.length items
    = (63 + List.length (filter (fun cpu => (cpu <? 8)%Z) (cpu_online_mask m)))%nat
    /\ (63 <= List.length items <= 71)%nat.
Proof.
  intros Hwf. eexists. split; [apply (stats_show_spec ts m Hwf)|].
  rewrite stats_output_length. split; [reflexivity|].
  pose proof (cpu_load_rows_length m Hwf) as Hle.
  rewrite cpu_load_rows_count in Hle. lia.
Qed.

(** Three processors online: 66 lines. *)
Lemma X18_report_length_witness :
  exists items,
    hmbird_stats_proc_show tunables_static (snapshot 123456789 [1; 2; 3])
    = Some (0, items) /\
    List.length items = 66%nat.
Proof.
  destruct (X18_report_length tunables_static (snapshot 123456789 [1; 2; 3])
              ltac:(solve_wf_machine))
    as (items & Hshow & Hlen & _).
  exists items. split; [exact Hshow | exact Hlen].
Defined.

Lemma land_mask_range (a : Z) (n : Z) :
  0 <= n -> 0 <= Z.land a (Z.ones n) < 2 ^ n.
Proof.
  intros Hn. rewrite Z.land_ones by exact Hn.
  apply Z.mod_pos_bound. apply Z.pow_pos_nonneg; lia.
Qed.

Lemma Forall_flat_map_rows {A B : Type} (P : B -> Prop) (g : A -> list B)
    (l : list A) :
  (forall x, Forall P (g x)) -> Forall P (flat_map g l).
Proof.
  intros H. induction l as [|x l IH]; [constructor|].
  simpl. apply Forall_app. split; [apply H | exact IH].
Qed.

(** X19: the masked and reduced figures of the report stay within
    their masks, whatever the counters hold: the switch figure of a
    [gdsq_cnt] row is below 65536, a [pcp_timeout_cnt] figure below
    1000, the ratio of a [pcp_ldsq_cnt] row below 100, a
    [pcp_enql_cnt] figure below 256 and the switch figure of a
    [CPU[..]] row below [2 ^ 24]. *)
Theorem X19_report_figures_bounded
    (m : machine) (online_cpus current_time : Z) :
  Forall (arg_in_range 2 65536) (gdsq_rows m online_cpus) /\
  Forall (arg_in_range 1 1000)
         (pcp_timeout_rows m online_cpus current_time) /\
  Forall (arg_in_range 2 100) (pcp_ldsq_rows m online_cpus current_time) /\
  Forall (arg_in_range 1 256) (pcp_enql_rows m online_cpus) /\
  Forall (arg_in_range 2 (2 ^ 24)) (cpu_load_rows m).
Proof.
  split; [|split; [|split; [|split]]].
  - unfold gdsq_rows. apply Forall_map, Forall_forall. intros i _.
    destruct (_ && _); cbn [arg_in_range nth]; [|lia].
    apply (land_mask_range _ 16). lia.
  - unfold pcp_timeout_rows. apply Forall_map, Forall_forall. intros i _.
    destruct (_ && _); cbn [arg_in_range nth]; [|lia].
    destruct (_ >? 0); [apply Z.mod_pos_bound|]; lia.
  - unfold pcp_ldsq_rows. apply Forall_map, Forall_forall. intros i _.
    destruct (_ && _); cbn [arg_in_range nth]; [|lia].
    apply Z.mod_pos_bound. lia.
  - unfold pcp_enql_rows. apply Forall_map, Forall_forall. intros i _.
    destruct (_ && _); cbn [arg_in_range nth]; [|lia].
    apply (land_mask_range _ 8). lia.
  - unfold cpu_load_rows. apply Forall_flat_map_rows. intros cpu.
    destruct (cpu <? 8); constructor; [|constructor].
    cbn [arg_in_range nth]. apply (land_mask_range _ 24). lia.
Qed.

(** ** The report and the optimizer *)

Lemma collect_and_stats_agree (m : machine) (n : Z) (l : list Z) :
  forall t need log s,
    fst (fst (fold_left (collect_step m n) l (t, need, log)))
    = fst (fold_left
             (fun (acc : Z * Z) cpu =>
                let '(total_nr_running, total_nr_switches) := acc in
                let r := cpu_rq m cpu in
                (u64 (total_nr_running + nr_running r),
                 u64 (total_nr_switches + nr_switches r)))
             l (t, s)).
Proof.
  induction l as [|cpu l IH]; intros t need log s; [reflexivity|].
  simpl. destruct (nr_running (cpu_rq m cpu) >? u64 (s32 (n * 2)));
    apply IH.
Qed.

Lemma collect_load_total (m : machine) (n : Z) :
  fst (fst (collect_load m n)) = fst (stats_collect m).
Proof.
  unfold collect_load, stats_collect. apply collect_and_stats_agree.
Qed.

(** X20: the report and the optimizer count alike: for every
    snapshot, wrap-around included, the total of running tasks the
    report prints is the total load the optimizer's sampling loop
    computes on that snapshot. *)
Theorem X20_report_total_is_optimizer_total (ts : tunables) (m : machine) :
  exists items,
    hmbird_stats_proc_show ts m = Some (0, items) /\
    In (Seq_printf "Total Running Tasks: %llu\n"
          [fst (fst (collect_load m (s32 (num_online_cpus m))))]) items.
Proof.
  pose proof (stats_show_total ts m) as Htot.
  unfold hmbird_stats_proc_show in *.
  rewrite (collect_load_total m (s32 (num_online_cpus m))).
  destruct (stats_collect m) as [r s]. cbn [fst].
  destruct (if s32 (num_online_cpus m) >? 0
            then div_u64_checked r (u64 (s32 (num_online_cpus m)))
            else Some 0) as [avg|]; [|contradiction].
  eexists. split; [reflexivity|].
  unfold stats_output. in_report.
Qed.

(** X21: [highres_tick_ctrl] is written as an [int] and reported as
    an [unsigned int]: after a negative number [n] (from -999 to -1)
    is written to [scx_shadow_tick_enable], a read of the entry
    prints [n] and the report prints [n + 2 ^ 32]. *)
Theorem X21_unsigned_view_of_negative
    (ts : tunables) (cf : cpufreq) (m : machine) (n : Z) :
  -999 <= n <= -1 ->
  read_entry
    (write_store ts entry_scx_shadow_tick_enable cf (decimal_text n)
       (Z.of_nat (List.length (decimal_text n))))
    entry_scx_shadow_tick_enable
  = [Seq_printf "%d\n" [n]] /\
  exists items,
    hmbird_stats_proc_show
      (write_store ts entry_scx_shadow_tick_enable cf (decimal_text n)
         (Z.of_nat (List.length (decimal_text n)))) m
    = Some (0, items) /\
    In (Seq_printf "Highres Tick Ctrl: %u\n" [n + 2 ^ 32]) items.
Proof.
  intros Hn. unfold read_entry, write_store, hmbird_common_show.
  rewrite (proc_write_decimal ts entry_scx_shadow_tick_enable cf n eq_refl
             ltac:(lia)).
  cbn [fst snd pe_data entry_scx_shadow_tick_enable].
  split; [rewrite store_eq; reflexivity|].
  pose proof (stats_show_total (store ts highres_tick_ctrl n) m) as Htot.
  unfold hmbird_stats_proc_show in *.
  destruct (stats_collect m) as [r s].
  destruct (if s32 (num_online_cpus m) >? 0
            then div_u64_checked r (u64 (s32 (num_online_cpus m)))
            else Some 0) as [avg|]; [|contradiction].
  eexists. split; [reflexivity|].
  assert (Hu : u32 (store ts highres_tick_ctrl n highres_tick_ctrl)
               = n + 2 ^ 32).
  { rewrite store_eq. unfold u32.
    replace n with ((n + 2 ^ 32) + (-1) * 2 ^ 32) at 1 by lia.
    rewrite Z_mod_plus_full. apply Z.mod_small. lia. }
  unfold stats_output. rewrite Hu. in_report.
Qed.

(** [-1] written to [scx_shadow_tick_enable]: the report shows
    4294967295. *)
Lemma X21_unsigned_view_of_negative_witness :
  exists items,
    hmbird_stats_proc_show
      (write_store tunables_static entry_scx_shadow_tick_enable cpufreq_4cpu
         (decimal_text (-1)) 2) (snapshot 123456789 [1; 2; 3])
    = Some (0, items) /\
    In (Seq_printf "Highres Tick Ctrl: %u\n" [4294967295]) items.
Proof.
  exact (proj2 (X21_unsigned_view_of_negative tunables_static cpufreq_4cpu
                  (snapshot 123456789 [1; 2; 3]) (-1) ltac:(lia))).
Defined.

(** ** The exit path *)

(** X22: the pass run by [build_policy_exit] is a pass like any
    other but for the fan-out: when it is not rate limited it records
    the clock and adjusts the threshold by the usual rule, with the
    enable flag left off. *)
Theorem X22_exit_pass_still_adjusts
    (p : policy) (m : machine) (exit_time : Z) :
  wf_machine m ->
  threshold_steppable p ->
  rate_limited p (sched_clock m) = false ->
  fst (build_policy_exit p m exit_time)
  = mk_policy false
      (adjusted (cpu_performance_threshold p)
                (total_queue_length m) (num_online_cpus m))
      (load_balance_interval p) (sched_clock m).
Proof.
  intros Hwf Ht Hg. unfold build_policy_exit.
  pose proof (optimize_pass_state (set_policy_optimization_enabled p false)
                m Hwf Ht Hg) as Hp.
  destruct (optimize_cpu_performance
              (set_policy_optimization_enabled p false) m) as [q lg].
  simpl in *. exact Hp.
Qed.

(** Exit on four overloaded processors: the threshold goes from 75 to
    80 and the flag is off. *)
Lemma X22_exit_pass_still_adjusts_witness :
  fst (build_policy_exit (policy_4cpu 0) (snapshot 200000000 [9; 9; 9; 9])
         200000000)
  = mk_policy false 80 75 200000000.
Proof.
  refine (X22_exit_pass_still_adjusts (policy_4cpu 0)
            (snapshot 200000000 [9; 9; 9; 9]) 200000000 _ _ _).
  - solve_wf_machine.
  - vm_compute. split; discriminate.
  - reflexivity.
Defined.

(** Registration refused with [-ENOMEM] (-12): the static policy is
    left as it was. *)
Lemma X1_init_outcome_witness :
  fst (fst (build_policy_init policy_static
              (snapshot 200000000 [9; 9; 9; 9]) 200000000 (-12)))
  = policy_static.
Proof.
  refine (proj1 (proj1 (proj2 (X1_init_outcome policy_static
                                 (snapshot 200000000 [9; 9; 9; 9])
                                 200000000 (-12))) _)).
  discriminate.
Defined.

(** ** The handler of [save_gov] *)

Lemma save_gov_walk_cases (cf : cpufreq) (cpus : list Z) :
  (save_gov_walk cf cpus = (true, map Cpufreq_cpu_get cpus) /\
   Forall (fun cpu => cpufreq_cpu_get cf cpu <> None) cpus) \/
  (exists walked cpu rest,
      cpus = walked ++ cpu :: rest /\
      Forall (fun c => cpufreq_cpu_get cf c <> None) walked /\
      cpufreq_cpu_get cf cpu = None /\
      save_gov_walk cf cpus = (false, map Cpufreq_cpu_get walked)).
Proof.
  induction cpus as [|c cpus IH].
  - left. split; [reflexivity | constructor].
  - simpl. destruct (cpufreq_cpu_get cf c) as [pcpu|] eqn:Ec.
    + assert (Hif : (if negb (c =? pcpu)
                     then save_gov_walk cf cpus
                     else save_gov_walk cf cpus) = save_gov_walk cf cpus)
        by (destruct (negb (c =? pcpu)); reflexivity).
      rewrite Hif.
      destruct IH as [[Hw Hall] | (walked & cpu & rest & Hl & Hall & Hnone & Hw)];
        rewrite Hw.
      * left. split; [reflexivity|].
        constructor; [congruence | exact Hall].
      * right. exists (c :: walked), cpu, rest.
        split; [rewrite Hl; reflexivity|].
        split; [constructor; [congruence | exact Hall]|].
        split; [exact Hnone | reflexivity].
    + right. exists [], c, cpus.
      split; [reflexivity|]. split; [constructor|].
      split; [exact Ec | reflexivity].
Qed.

(** X23: [save_gov_str] never writes its cell and never looks at the
    input.  If every present processor has a cpufreq policy it
    returns the byte count, having taken a reference on each policy
    and given none back; otherwise it faults at the first present
    processor without a policy, having taken a reference on each
    policy before that one, and does not return. *)
Theorem X23_save_gov_walks_present_cpus
    (cf : cpufreq) (buf : list ascii) (count pval : Z) :
  0 <= count < 2 ^ 63 ->
  snd (fst (save_gov_str cf buf count pval)) = pval /\
  ((Forall (fun cpu => cpufreq_cpu_get cf cpu <> None)
           (cpu_present_mask cf) /\
    fst (fst (save_gov_str cf buf count pval)) = Some count /\
    snd (save_gov_str cf buf count pval)
    = map Cpufreq_cpu_get (cpu_present_mask cf)) \/
   (exists walked cpu rest,
       cpu_present_mask cf = walked ++ cpu :: rest /\
       Forall (fun c => cpufreq_cpu_get cf c <> None) walked /\
       cpufreq_cpu_get cf cpu = None /\
       fst (fst (save_gov_str cf buf count pval)) = None /\
       snd (save_gov_str cf buf count pval)
       = map Cpufreq_cpu_get walked)).
Proof.
  intros Hc. unfold save_gov_str.
  destruct (save_gov_walk_cases cf (cpu_present_mask cf))
    as [[Hw Hall] | (walked & cpu & rest & Hl & Hall & Hnone & Hw)];
    rewrite Hw; simpl.
  - split; [reflexivity|]. left.
    rewrite s64_small by lia. auto.
  - split; [reflexivity|]. right.
    exists walked, cpu, rest. auto.
Qed.

(** Processor 2 of four has no policy: the write faults after taking
    the references of processors 0 and 1. *)
Lemma X23_save_gov_walks_present_cpus_witness :
  snd (fst (save_gov_str cpufreq_gap (bytes_of "1") 1 0)) = 0 /\
  save_gov_str cpufreq_gap (bytes_of "1") 1 0
  = (None, 0, [Cpufreq_cpu_get 0; Cpufreq_cpu_get 1]) /\
  save_gov_str cpufreq_4cpu (bytes_of "1") 1 0
  = (Some 1, 0, [Cpufreq_cpu_get 0; Cpufreq_cpu_get 1;
                 Cpufreq_cpu_get 2; Cpufreq_cpu_get 3]).
Proof.
  split; [|split; reflexivity].
  refine (proj1 (X23_save_gov_walks_present_cpus cpufreq_gap
                   (bytes_of "1") 1 0 _)).
  vm_compute. split; [discriminate | reflexivity].
Defined.
